(** * api-gateway: datacenter handlers and the service capability skeleton

    A shallow embedding of [datacenters.go] (the HTTP handlers of the
    Datacenter resource) and of the NATS subscribers that serve the
    [service.*] subjects, together with the properties the specification
    states about them.

    Layout:
    - entity records ([User], [Datacenter], [Service]), errors and responses;
    - [strconv.Atoi], as far as the handlers use it;
    - the handlers, written over a class [Model] that collects the methods
      of [Datacenter] and [User] the handlers call;
    - [Bus]: an in-memory backend behind that class;
    - the [service.get] / [service.find] / [service.set] / [service.del]
      subscribers;
    - the theorems. *)

From Stdlib Require Import ZArith List String Ascii Bool Lia.
Import ListNotations.

Local Open Scope string_scope.
Local Open Scope list_scope.
Local Open Scope Z_scope.

Set Implicit Arguments.

(* ================================================================== *)
(** * Entities *)

(** Go's [int] fields are modelled as [Z]: the handlers only compare them. *)

Module User.
Record t := mk {
  ID : Z;
  Username : string;
  GroupID : Z;
  Admin : bool
}.
End User.

Module Datacenter.
Record t := mk {
  ID : Z;
  GroupID : Z;
  Name : string;
  Type_ : string;
  Username : string;
  Password : string;
  AccessKeyID : string;
  SecretAccessKey : string;
  VCloudURL : string
}.

(** [var d Datacenter]: the zero value. *)
Definition zero : t := mk 0 0 "" "" "" "" "" "" "".

Definition setGroupID (d : t) (g : Z) : t :=
  mk (ID d) g (Name d) (Type_ d) (Username d) (Password d)
     (AccessKeyID d) (SecretAccessKey d) (VCloudURL d).

Definition setID (d : t) (i : Z) : t :=
  mk i (GroupID d) (Name d) (Type_ d) (Username d) (Password d)
     (AccessKeyID d) (SecretAccessKey d) (VCloudURL d).

(** The four assignments of [updateDatacenterHandler]:
    [existing.Username = d.Username] ... [existing.SecretAccessKey =
    d.SecretAccessKey]. *)
Definition setCredentials (existing d : t) : t :=
  mk (ID existing) (GroupID existing) (Name existing) (Type_ existing)
     (Username d) (Password d) (AccessKeyID d) (SecretAccessKey d)
     (VCloudURL existing).
End Datacenter.

Module Service.
Record t := mk {
  ID : string;
  Name : string;
  GroupID : Z;
  DatacenterID : Z
}.

(** [Service{}]: the zero value. *)
Definition zero : t := mk "" "" 0 0.

Definition setID (s : t) (i : string) : t :=
  mk i (Name s) (GroupID s) (DatacenterID s).
End Service.

(* ================================================================== *)
(** * Errors and responses *)

(** Go's [error] values seen by the handlers.  [ErrBadReqBody],
    [ErrUnauthorized] and [ErrInternal] are the package-level values the
    handlers return by name; [ErrNotFound] and [ErrTimeout] are the
    backend failures of the specification's taxonomy; [HTTPError] is
    [echo.NewHTTPError code message]. *)
Inductive error : Type :=
| ErrBadReqBody
| ErrUnauthorized
| ErrInternal
| ErrNotFound
| ErrTimeout
| ErrValidation (reason : string)
| HTTPError (code : Z) (message : text)
with text : Type :=
| Literal (s : string)
| ErrorOf (e : error).          (* err.Error() *)

(** What is handed to the response writer.  [json.Marshal] is kept
    symbolic: the body records which value was serialized. *)
Inductive Body : Type :=
| Bytes (s : string)
| MarshalDatacenter (d : Datacenter.t)
| MarshalDatacenters (ds : list Datacenter.t).

Inductive Response : Type :=
| JSONBlob (code : Z) (body : Body)      (* c.JSONBlob(code, body) *)
| String_ (code : Z) (s : string).       (* c.String(code, s) *)

(** A handler either returns an error to the framework or writes a
    response and returns nil. *)
Inductive Result : Type :=
| Fail (e : error)
| Respond (r : Response).

Definition StatusOK : Z := 200.
Definition StatusBadRequest : Z := 400.

(** The status a caller observes.  Only [*echo.HTTPError] values and
    written responses carry a status in the source; for the named error
    values the status is the one of the specification's taxonomy. *)
Definition errorStatus (e : error) : option Z :=
  match e with
  | HTTPError code _ => Some code
  | ErrBadReqBody => Some 400
  | ErrInternal => Some 500
  | ErrNotFound => Some 404
  | ErrValidation _ => Some 400
  | ErrUnauthorized => None     (* 401 or 403: left open *)
  | ErrTimeout => None
  end.

Definition status (r : Result) : option Z :=
  match r with
  | Fail e => errorStatus e
  | Respond (JSONBlob code _) => Some code
  | Respond (String_ code _) => Some code
  end.

(** The request as the handlers see it: the decoded token, the
    [:datacenter] path parameter and the result of decoding the body
    ([None] when it cannot be decoded). *)
Record Context := mkContext {
  token : User.t;
  Param : string;
  body : option Datacenter.t
}.

(** [authenticatedUser(c)] *)
Definition authenticatedUser (c : Context) : User.t := token c.

(** [d.Map(c)]: fills [d] from the request body; fails on a body that
    does not decode. *)
Definition Map (c : Context) : option Datacenter.t := body c.

(* ================================================================== *)
(** * strconv.Atoi *)

Definition digitVal (a : ascii) : option Z :=
  let n := Z.of_nat (nat_of_ascii a) in
  if (48 <=? n) && (n <=? 57) then Some (n - 48) else None.

Definition maxInt : Z := 2 ^ 63 - 1.
Definition minInt : Z := - 2 ^ 63.
Definition maxUint64 : Z := 2 ^ 64 - 1.

Inductive numError : Type :=
| NoError
| ErrSyntax
| ErrRange.

(** [strconv.ParseUint(s, 10, 64)] on the bytes still to read, [n] being
    the value read so far.  A byte that is no digit ends the scan with a
    syntax error and 0; a value that no longer fits 64 bits ends it at
    once with a range error and the largest value, whatever follows. *)
Fixpoint parseUint (s : string) (n : Z) : Z * numError :=
  match s with
  | EmptyString => (n, NoError)
  | String c rest =>
      match digitVal c with
      | None => (0, ErrSyntax)
      | Some d =>
          if n >=? maxUint64 / 10 + 1 then (maxUint64, ErrRange)
          else
            let n1 := n * 10 + d in
            if n1 >? maxUint64 then (maxUint64, ErrRange)
            else parseUint rest n1
      end
  end.

(** Value and success flag.  A syntax error gives 0, a range error the
    nearest bound of the 64-bit [int]. *)
Definition Atoi (s : string) : Z * bool :=
  let '(neg, rest) :=
    match s with
    | String "-"%char r => (true, r)
    | String "+"%char r => (false, r)
    | _ => (false, s)
    end in
  match rest with
  | EmptyString => (0, false)
  | _ =>
      match parseUint rest 0 with
      | (_, ErrSyntax) => (0, false)
      | (un, _) =>
          if negb neg && (un >=? 2 ^ 63) then (maxInt, false)
          else if neg && (un >? 2 ^ 63) then (minInt, false)
          else (if neg then - un else un, true)
      end
  end.

(* ================================================================== *)
(** * The handlers of datacenters.go *)

(** The methods of [Datacenter] and [User] that the handlers call.  [W]
    is the state of the world behind them (the backing store and the
    bus).  Lookups leave the world as it is; [Save] and [Delete] may
    change it.  [Save] returns the entity as the backend answered it; a
    failed [Save] leaves its receiver as it was. *)
Class Model (W : Type) := {
  Validate : Datacenter.t -> option error;
  Redact : Datacenter.t -> Datacenter.t;
  Improve : Datacenter.t -> Datacenter.t;
  FindAll : User.t -> W -> error + list Datacenter.t;
  Datacenters : User.t -> W -> error + list Datacenter.t;
  FindByID : Z -> W -> error + Datacenter.t;
  FindByName : string -> W -> error + Datacenter.t;
  Save : Datacenter.t -> W -> W * (error + Datacenter.t);
  Delete : Datacenter.t -> W -> W * option error;
  Services : Datacenter.t -> W -> error + list Service.t
}.

(** What a handler run leaves behind: the world, the lines written with
    [log.Println], and the result. *)
Record Outcome (W : Type) := mkOutcome {
  world : W;
  logged : list error;
  result : Result
}.

Section Handlers.
Context {W : Type} {M : Model W}.

(** [getDatacentersHandler]: GET /datacenters/ *)
Definition getDatacentersHandler (c : Context) (w : W) : Outcome W :=
  let au := authenticatedUser c in
  let found :=
    if User.Admin au then FindAll au w else Datacenters au w in
  match found with
  | inl err => mkOutcome w [] (Fail err)
  | inr datacenters =>
      let datacenters := List.map (fun d => Improve (Redact d)) datacenters in
      mkOutcome w [] (Respond (JSONBlob StatusOK (MarshalDatacenters datacenters)))
  end.

(** [getDatacenterHandler]: GET /datacenters/:id *)
Definition getDatacenterHandler (c : Context) (w : W) : Outcome W :=
  let id := fst (Atoi (Param c)) in
  match FindByID id w with
  | inl err => mkOutcome w [] (Fail err)
  | inr d => mkOutcome w [] (Respond (JSONBlob StatusOK (MarshalDatacenter d)))
  end.

Definition unassignedNotice : string :=
  ("Current user does not belong to any group." ++ String "010"%char
   "Please assign the user to a group before performing this action")%string.

(** [createDatacenterHandler]: POST /datacenters/ *)
Definition createDatacenterHandler (c : Context) (w : W) : Outcome W :=
  let au := authenticatedUser c in
  if User.GroupID au =? 0 then
    mkOutcome w [] (Respond (JSONBlob 401 (Bytes unassignedNotice)))
  else
    match Map c with
    | None => mkOutcome w [] (Fail ErrBadReqBody)
    | Some d =>
        match Validate d with
        | Some err =>
            mkOutcome w [] (Fail (HTTPError StatusBadRequest (ErrorOf err)))
        | None =>
            let d := Datacenter.setGroupID d (User.GroupID au) in
            match FindByName (Datacenter.Name d) w with
            | inr _ =>
                mkOutcome w []
                  (Fail (HTTPError 409 (Literal "Specified datacenter already exists")))
            | inl _ =>
                match Save d w with
                | (w', inl err) =>
                    (* log.Println(err), then carry on *)
                    mkOutcome w' [err]
                      (Respond (JSONBlob StatusOK (MarshalDatacenter d)))
                | (w', inr d') =>
                    mkOutcome w' []
                      (Respond (JSONBlob StatusOK (MarshalDatacenter d')))
                end
            end
        end
    end.

(** [updateDatacenterHandler]: PUT /datacenters/:id *)
Definition updateDatacenterHandler (c : Context) (w : W) : Outcome W :=
  match Map c with
  | None => mkOutcome w [] (Fail ErrBadReqBody)
  | Some d =>
      let au := authenticatedUser c in
      let id := fst (Atoi (Param c)) in
      match FindByID id w with
      | inl err => mkOutcome w [] (Fail err)
      | inr existing =>
          (* if au.GroupID != au.GroupID *)
          if negb (User.GroupID au =? User.GroupID au) then
            mkOutcome w [] (Fail ErrUnauthorized)
          else
            let existing := Datacenter.setCredentials existing d in
            match Save existing w with
            | (w', inl err) =>
                mkOutcome w' [err]
                  (Respond (JSONBlob StatusOK (MarshalDatacenter d)))
            | (w', inr _) =>
                mkOutcome w' []
                  (Respond (JSONBlob StatusOK (MarshalDatacenter d)))
            end
      end
  end.

(** [deleteDatacenterHandler]: DELETE /datacenters/:id *)
Definition deleteDatacenterHandler (c : Context) (w : W) : Outcome W :=
  let au := authenticatedUser c in
  let id := fst (Atoi (Param c)) in
  match FindByID id w with
  | inl err => mkOutcome w [] (Fail err)
  | inr d =>
      if negb (User.GroupID au =? Datacenter.GroupID d) then
        mkOutcome w [] (Fail ErrUnauthorized)
      else
        match Services d w with
        | inl err => mkOutcome w [] (Fail (HTTPError 500 (ErrorOf err)))
        | inr ss =>
            if (0 <? Z.of_nat (List.length ss)) then
              mkOutcome w []
                (Fail (HTTPError 400
                   (Literal "Existing services are referring to this datacenter.")))
            else
              match Delete d w with
              | (w', Some err) => mkOutcome w' [] (Fail err)
              | (w', None) => mkOutcome w' [] (Respond (String_ StatusOK ""))
              end
        end
  end.
End Handlers.

(* ================================================================== *)
(** * An in-memory backend *)

(** The methods of [Datacenter] and [User] live outside [datacenters.go];
    the specification describes them as calls (over the publish/subscribe
    bus) to a backing store that offers [FindByID], [FindAll],
    [FindByName], [Save] and [Delete].  [Bus] is that store: two lists and
    the subjects that currently have no subscriber. *)
Module Bus.

Record World := mkWorld {
  datacenters : list Datacenter.t;
  services : list Service.t;
  offline : list string
}.

Definition online (subject : string) (w : World) : bool :=
  negb (existsb (String.eqb subject) (offline w)).

(** Modelled from the spec: the RPC client ([Call(subject, payload,
    timeout)]) lies outside the two source files.  "A call to a subject with no active
    subscriber returns a Timeout error"; otherwise the subscriber's
    reply is returned. *)
Definition call {A : Type} (subject : string) (w : World)
    (reply : error + A) : error + A :=
  if online subject w then reply else inl ErrTimeout.

Definition hasID (id : Z) (d : Datacenter.t) : bool :=
  Datacenter.ID d =? id.

Definition hasName (name : string) (d : Datacenter.t) : bool :=
  String.eqb (Datacenter.Name d) name.

Definition inGroup (g : Z) (d : Datacenter.t) : bool :=
  Datacenter.GroupID d =? g.

Definition found {A : Type} (o : option A) : error + A :=
  match o with
  | Some a => inr a
  | None => inl ErrNotFound
  end.

(** Modelled from the spec: [Datacenter.FindByID] is declared outside [datacenters.go].
    The [get] capability answers with the first stored entity whose
    identifier matches, and with not-found when there is none. *)
Definition findByID (id : Z) (w : World) : error + Datacenter.t :=
  call "datacenter.get" w (found (find (hasID id) (datacenters w))).

(** Modelled from the spec: [Datacenter.FindByName] is declared outside [datacenters.go].
    A name lookup through the same [get] capability; names are looked
    up across all tenants. *)
Definition findByName (name : string) (w : World) : error + Datacenter.t :=
  call "datacenter.get" w (found (find (hasName name) (datacenters w))).

(** Modelled from the spec: [Datacenter.FindAll] is declared outside [datacenters.go].
    "find-all: returns every stored entity unfiltered by tenant". *)
Definition findAll (au : User.t) (w : World) : error + list Datacenter.t :=
  call "datacenter.find" w (inr (datacenters w)).

(** Modelled from the spec: [User.Datacenters] is declared outside [datacenters.go].
    "non-admins receive only entities in their own group". *)
Definition userDatacenters (au : User.t) (w : World)
    : error + list Datacenter.t :=
  call "datacenter.find" w
    (inr (filter (inGroup (User.GroupID au)) (datacenters w))).

Definition freshID (ds : list Datacenter.t) : Z :=
  1 + fold_right Z.max 0 (List.map Datacenter.ID ds).

Fixpoint replaceFirst (d : Datacenter.t) (ds : list Datacenter.t)
    : option (list Datacenter.t) :=
  match ds with
  | [] => None
  | x :: rest =>
      if hasID (Datacenter.ID d) x then Some (d :: rest)
      else option_map (cons x) (replaceFirst d rest)
  end.

Definition put (d : Datacenter.t) (ds : list Datacenter.t)
    : list Datacenter.t * Datacenter.t :=
  if Datacenter.ID d =? 0 then
    let d' := Datacenter.setID d (freshID ds) in (ds ++ [d'], d')
  else
    match replaceFirst d ds with
    | Some ds' => (ds', d)
    | None => (ds ++ [d], d)
    end.

(** Modelled from the spec: [Datacenter.Save] is declared outside [datacenters.go].
    "Entities are created via a Save style call that assigns an ID if
    absent, mutated in place by subsequent Save calls"; the [set]
    capability "echoes it back".  A failed call leaves the store and
    the entity as they were. *)
Definition save (d : Datacenter.t) (w : World)
    : World * (error + Datacenter.t) :=
  if online "datacenter.set" w then
    let '(ds', d') := put d (datacenters w) in
    (mkWorld ds' (services w) (offline w), inr d')
  else (w, inl ErrTimeout).

(** Modelled from the spec: [Datacenter.Delete] is declared outside [datacenters.go].
    The entity with this identifier is "removed by Delete"; the [del]
    capability "replies with an empty acknowledgment". *)
Definition delete (d : Datacenter.t) (w : World) : World * option error :=
  if online "datacenter.del" w then
    (mkWorld (filter (fun x => negb (hasID (Datacenter.ID d) x)) (datacenters w))
             (services w) (offline w), None)
  else (w, Some ErrTimeout).

Definition refersTo (d : Datacenter.t) (s : Service.t) : bool :=
  Service.DatacenterID s =? Datacenter.ID d.

(** Modelled from the spec: [Datacenter.Services] is declared outside [datacenters.go].
    "Looks up all Services referencing this Datacenter's identifier". *)
Definition servicesOf (d : Datacenter.t) (w : World)
    : error + list Service.t :=
  call "service.find" w (inr (filter (refersTo d) (services w))).

(** Modelled from the spec: [Datacenter.Redact] is declared outside [datacenters.go].
    "Secret fields (Password, AccessKeyID, SecretAccessKey) are
    stripped". *)
Definition redact (d : Datacenter.t) : Datacenter.t :=
  Datacenter.mk (Datacenter.ID d) (Datacenter.GroupID d) (Datacenter.Name d)
    (Datacenter.Type_ d) (Datacenter.Username d) "" "" ""
    (Datacenter.VCloudURL d).

(** Modelled from the spec: [Datacenter.Improve] is declared outside [datacenters.go].
    It "may attach derived, non-authoritative presentation fields";
    none of the nine fields of the data model is such a field, so on
    them it is the identity. *)
Definition improve (d : Datacenter.t) : Datacenter.t := d.

Section WithValidate.
(** [Datacenter.Validate] is declared outside [datacenters.go] and the
    specification does not list the required fields: it stays a
    parameter. *)
Variable validate : Datacenter.t -> option error.

Definition model : Model World := {|
  Validate := validate;
  Redact := redact;
  Improve := improve;
  FindAll := findAll;
  Datacenters := userDatacenters;
  FindByID := findByID;
  FindByName := findByName;
  Save := save;
  Delete := delete;
  Services := servicesOf
|}.
End WithValidate.

(** Every stored datacenter has been given an identifier. *)
Definition identified (w : World) : Prop :=
  Forall (fun d => Datacenter.ID d <> 0) (datacenters w).

End Bus.

(* ================================================================== *)
(** * The service capability (NATS subscribers) *)

Definition mockServices : list Service.t :=
  [ Service.mk "1" "test" 1 1;
    Service.mk "2" "test2" 2 3 ].

(** [*nats.Msg], as far as the subscribers read it. *)
Record Msg := mkMsg {
  Data : string;
  Reply : string
}.

Inductive Payload : Type :=
| Raw (s : string)
| MarshalService (s : Service.t)
| MarshalServices (ss : list Service.t).

(** [n.Publish(subject, data)] *)
Definition Publication : Type := (string * Payload)%type.

Definition quote : string := String (ascii_of_nat 34) EmptyString.

(** The byte string [{"error":"not found"}]. *)
Definition notFound : string :=
  ("{" ++ quote ++ "error" ++ quote ++ ":" ++ quote ++ "not found" ++ quote ++ "}")%string.

Section Subscribers.
(** [json.Unmarshal(msg.Data, &s)] into a zero [Service], its error
    being discarded as the subscribers do. *)
Variable Unmarshal : string -> Service.t.

(** [services] is the value of the package variable [mockServices] when
    the message arrives. *)
Variable services : list Service.t.

(** The [for _, service := range mockServices] loop of the
    [service.get] callback: [Some service] when it publishes the
    service and returns, [None] when it falls through. *)
Fixpoint rangeServices (qs : Service.t) (ss : list Service.t)
    : option Service.t :=
  match ss with
  | [] => None
  | service :: rest =>
      if negb (Service.GroupID qs =? 0)
         && (Service.GroupID service =? Service.GroupID qs)
         && String.eqb (Service.ID service) (Service.ID qs)
      then Some service
      else if (Service.GroupID qs =? 0)
              && String.eqb (Service.ID service) (Service.ID qs)
      then Some service
      else rangeServices qs rest
  end.

(** The callback of [getServiceSubcriber]. *)
Definition getServiceSubcriber (msg : Msg) : list Publication :=
  let hit :=
    if negb (Nat.eqb (String.length (Data msg)) 0) then
      rangeServices (Unmarshal (Data msg)) services
    else None in
  match hit with
  | Some service => [(Reply msg, MarshalService service)]
  | None => [(Reply msg, Raw notFound)]
  end.

(** The callback of [findServiceSubcriber]. *)
Definition findServiceSubcriber (msg : Msg) : list Publication :=
  [(Reply msg, MarshalServices services)].

(** The callback of [createServiceSubcriber]. *)
Definition createServiceSubcriber (msg : Msg) : list Publication :=
  let s := Unmarshal (Data msg) in
  let s := Service.setID s "3" in
  [(Reply msg, MarshalService s)].

(** The callback of [deleteServiceSubcriber]. *)
Definition deleteServiceSubcriber (msg : Msg) : list Publication :=
  [(Reply msg, Raw "")].
End Subscribers.

(** The rule of the specification for [service.get], in its words: with a
    non-zero group identifier both group identifier and entity identifier
    must match, with a zero one the entity identifier alone. *)
Definition specMatches (qs service : Service.t) : bool :=
  if Service.GroupID qs =? 0 then
    String.eqb (Service.ID service) (Service.ID qs)
  else
    (Service.GroupID service =? Service.GroupID qs)
    && String.eqb (Service.ID service) (Service.ID qs).

(* ================================================================== *)
(** * Sample data *)

(** A validator to run the handlers with: a datacenter needs a name. *)
Definition requireName (d : Datacenter.t) : option error :=
  if String.eqb (Datacenter.Name d) "" then
    Some (ErrValidation "Datacenter name is empty")
  else None.

Definition busModel : Model Bus.World := Bus.model requireName.

Definition dcTest : Datacenter.t :=
  Datacenter.mk 1 1 "test" "vcloud" "operator" "hunter2" "AKIA1" "s3cr3t" "https://vcloud.test".

Definition dcOther : Datacenter.t :=
  Datacenter.mk 2 2 "test2" "aws" "operator2" "pa55" "AKIA2" "k3y" "".

(** Two datacenters of two groups and the two mock services: the first
    datacenter is referred to by service "1", the second by none. *)
Definition sampleWorld : Bus.World :=
  Bus.mkWorld [dcTest; dcOther] mockServices [].

(** The same store while nobody is subscribed to [datacenter.set]. *)
Definition setDownWorld : Bus.World :=
  Bus.mkWorld [dcTest; dcOther] mockServices ["datacenter.set"].

Definition userOne : User.t := User.mk 10 "test" 1 false.
Definition userTwo : User.t := User.mk 20 "test2" 2 false.
Definition adminUser : User.t := User.mk 1 "admin" 1 true.

(** A PUT body that carries credentials only. *)
Definition newCredentials : Datacenter.t :=
  Datacenter.mk 0 0 "" "" "mallory" "changed" "AKIA9" "n3w" "".

(** PUT /datacenters/1 by a non-admin of group 2; datacenter 1 belongs to
    group 1. *)
Definition putByOutsider : Context :=
  mkContext userTwo "1" (Some newCredentials).

(** PUT /datacenters/1 by a member of the owning group. *)
Definition putByOwner : Context :=
  mkContext userOne "1" (Some newCredentials).

(** A POST body; the submitted group is 7. *)
Definition newDatacenter : Datacenter.t :=
  Datacenter.mk 0 7 "new-test" "vcloud" "test" "test" "" "" "test".

Definition postByUserOne : Context :=
  mkContext userOne "" (Some newDatacenter).

(** A POST body whose name is already taken by a datacenter of group 1. *)
Definition duplicateDatacenter : Datacenter.t :=
  Datacenter.mk 0 0 "test" "aws" "test" "test" "" "" "".

Definition postDuplicateByUserTwo : Context :=
  mkContext userTwo "" (Some duplicateDatacenter).

Definition deleteOneByUserOne : Context := mkContext userOne "1" None.
Definition deleteTwoByUserTwo : Context := mkContext userTwo "2" None.
Definition listByAdmin : Context := mkContext adminUser "" None.
Definition listByUserTwo : Context := mkContext userTwo "" None.

(** What the store answers to [postByUserOne] on [sampleWorld]. *)
Definition createdDatacenter : Datacenter.t :=
  Datacenter.mk 3 1 "new-test" "vcloud" "test" "test" "" "" "test".

(** Datacenter 1 after [putByOwner] or [putByOutsider]. *)
Definition dcTestUpdated : Datacenter.t :=
  Datacenter.mk 1 1 "test" "vcloud" "mallory" "changed" "AKIA9" "n3w" "https://vcloud.test".

(** The statuses of the specification's error taxonomy. *)
Definition Conflict : Z := 409.
Definition InternalError : Z := 500.

(** The sentence of the specification about deleting a datacenter, read
    on one request: with the lookup answered and the caller in the owning
    group, a referenced datacenter gives Conflict and stays, an
    unreferenced one gives success with no body. *)
Definition deleteSentence (c : Context) (w : Bus.World) : Prop :=
  forall d,
    Bus.findByID (fst (Atoi (Param c))) w = inr d ->
    User.GroupID (authenticatedUser c) = Datacenter.GroupID d ->
    let o := @deleteDatacenterHandler _ busModel c w in
    (filter (Bus.refersTo d) (Bus.services w) <> [] ->
       status (result o) = Some Conflict /\ world o = w)
    /\ (filter (Bus.refersTo d) (Bus.services w) = [] ->
       result o = Respond (String_ StatusOK "")).

(** The sentence of the specification about creating a datacenter,
    read on one request: a name that a stored datacenter has gives
    Conflict and nothing is saved; a name that none has gives success
    and a response with a generated identifier. *)
Definition createSentence (c : Context) (w : Bus.World) : Prop :=
  forall d,
    Map c = Some d ->
    let o := @createDatacenterHandler _ busModel c w in
    ((exists x, In x (Bus.datacenters w)
                /\ Datacenter.Name x = Datacenter.Name d) ->
       status (result o) = Some Conflict /\ world o = w)
    /\ ((forall x, In x (Bus.datacenters w) ->
                   Datacenter.Name x <> Datacenter.Name d) ->
       exists d',
         result o = Respond (JSONBlob StatusOK (MarshalDatacenter d'))
         /\ Datacenter.ID d' <> 0
         /\ forall x, In x (Bus.datacenters w) ->
                      Datacenter.ID x <> Datacenter.ID d').

(** Decoding of the [service.get] queries of the sample messages: the
    payload is read as "group:id", an empty group meaning none. *)
Definition sampleUnmarshal (data : string) : Service.t :=
  if String.eqb data "1" then Service.mk "1" "" 0 0
  else if String.eqb data "2:1" then Service.mk "1" "" 2 0
  else if String.eqb data "1:1" then Service.mk "1" "" 1 0
  else if String.eqb data "9" then Service.mk "9" "" 0 0
  else Service.zero.

(** No two stored datacenters share a name. *)
Definition uniqueNames (w : Bus.World) : Prop :=
  NoDup (List.map Datacenter.Name (Bus.datacenters w)).

(** The sample store while nobody is subscribed to [datacenter.get]. *)
Definition getDownWorld : Bus.World :=
  Bus.mkWorld [dcTest; dcOther] mockServices ["datacenter.get"].

(** What the store answers to [postDuplicateByUserTwo] on
    [getDownWorld]. *)
Definition createdDuplicate : Datacenter.t :=
  Datacenter.mk 3 2 "test" "aws" "test" "test" "" "" "".

(** GET /datacenters/1 by a non-admin of group 2. *)
Definition getOneByUserTwo : Context := mkContext userTwo "1" None.

(** GET /datacenters/3 *)
Definition getThree : Context := mkContext userOne "3" None.

(** GET /datacenters/test: the parameter of the repository's tests. *)
Definition getNamedTest : Context := mkContext userOne "test" None.

(** DELETE /datacenters/2 by the admin, who is in group 1. *)
Definition deleteTwoByAdmin : Context := mkContext adminUser "2" None.

(** DELETE /datacenters/9: no such datacenter. *)
Definition deleteNineByUserOne : Context := mkContext userOne "9" None.

(** POST with a body that lacks a name. *)
Definition postNameless : Context :=
  mkContext userOne "" (Some newCredentials).

(** Two services with one identifier, in two groups. *)
Definition twinServices : list Service.t :=
  [ Service.mk "1" "first" 1 1;
    Service.mk "1" "second" 2 1 ].

(* ================================================================== *)
(** * Properties of the service capability *)

Section SubscriberFacts.
Variable Unmarshal : string -> Service.t.

(** The two branches of the loop body are the specification's rule. *)
Lemma rangeServices_find (qs : Service.t) (ss : list Service.t) :
  rangeServices qs ss = find (specMatches qs) ss.
Proof.
  induction ss as [|s rest IH]; simpl; [reflexivity|].
  rewrite IH. unfold specMatches.
  destruct (Service.GroupID qs =? 0); simpl.
  - destruct (String.eqb (Service.ID s) (Service.ID qs)); reflexivity.
  - destruct (Service.GroupID s =? Service.GroupID qs); simpl; [|reflexivity].
    destruct (String.eqb (Service.ID s) (Service.ID qs)); reflexivity.
Qed.

Lemma specMatches_true (qs s : Service.t) :
  specMatches qs s = true <->
  Service.ID s = Service.ID qs /\
  (Service.GroupID qs <> 0 -> Service.GroupID s = Service.GroupID qs).
Proof.
  unfold specMatches.
  destruct (Z.eqb_spec (Service.GroupID qs) 0) as [E|E].
  - rewrite String.eqb_eq. intuition.
  - rewrite andb_true_iff, Z.eqb_eq, String.eqb_eq. intuition.
Qed.

Lemma emptyData (data : string) :
  Nat.eqb (String.length data) 0 = true <-> data = "".
Proof.
  destruct data; simpl; split; intro H; try reflexivity; discriminate.
Qed.

(** The callback as one equation. *)
Lemma getServiceSubcriber_eq (ss : list Service.t) (msg : Msg) :
  getServiceSubcriber Unmarshal ss msg =
  [(Reply msg,
    match (if String.eqb (Data msg) "" then None
           else find (specMatches (Unmarshal (Data msg))) ss) with
    | Some s => MarshalService s
    | None => Raw notFound
    end)].
Proof.
  unfold getServiceSubcriber. rewrite rangeServices_find.
  destruct (Data msg) as [|a r]; simpl; [reflexivity|].
  destruct (find _ ss); reflexivity.
Qed.
End SubscriberFacts.

(** C5: on [service.get] exactly one reply is published, to the reply
    address of the message.  It carries a stored service only if that
    service has the identifier of the query and, when the query's group
    is non-zero, its group as well; whenever the (non-empty) query has
    such a stored service a service is returned: with group zero
    the identifier alone decides.  When no stored service matches, also
    because of the group, the reply is the sentinel
    [{"error":"not found"}], spelled out below byte by byte (["034"] is
    the double quote). *)
Theorem service_get_replies_match_or_sentinel
    (Unmarshal : string -> Service.t) (ss : list Service.t) (msg : Msg) :
  let qs := Unmarshal (Data msg) in
  let sentinel :=
    string_of_list_ascii
      [ "{"; "034"; "e"; "r"; "r"; "o"; "r"; "034"; ":";
        "034"; "n"; "o"; "t"; " "; "f"; "o"; "u"; "n"; "d"; "034"; "}" ]%char in
  exists p : Payload,
    getServiceSubcriber Unmarshal ss msg = [(Reply msg, p)]
    /\ (forall s, p = MarshalService s ->
          In s ss /\ Service.ID s = Service.ID qs /\
          (Service.GroupID qs <> 0 -> Service.GroupID s = Service.GroupID qs))
    /\ (Data msg <> "" -> Service.GroupID qs = 0 ->
          forall s, In s ss -> Service.ID s = Service.ID qs ->
          exists s', p = MarshalService s' /\ Service.ID s' = Service.ID qs)
    /\ (Data msg <> "" -> Service.GroupID qs <> 0 ->
          forall s, In s ss -> Service.ID s = Service.ID qs ->
          Service.GroupID s = Service.GroupID qs ->
          exists s', p = MarshalService s' /\ Service.ID s' = Service.ID qs
                     /\ Service.GroupID s' = Service.GroupID qs)
    /\ ((forall s, In s ss ->
            Service.ID s = Service.ID qs ->
            Service.GroupID qs <> 0 /\ Service.GroupID s <> Service.GroupID qs) ->
          p = Raw sentinel)
    /\ (Data msg = "" -> p = Raw sentinel).
Proof.
  intros qs sentinel.
  assert (Hbytes : sentinel = notFound) by reflexivity.
  rewrite Hbytes. clear Hbytes sentinel.
  eexists. split; [apply getServiceSubcriber_eq|].
  fold qs.
  destruct (String.eqb_spec (Data msg) "") as [E|E].
  - split; [|split; [|split; [|split]]].
    + intros s Hs; discriminate.
    + intros Hne; contradiction.
    + intros Hne; contradiction.
    + reflexivity.
    + reflexivity.
  - destruct (find (specMatches qs) ss) as [s0|] eqn:F.
    + apply find_some in F. destruct F as [Hin Hm].
      apply specMatches_true in Hm. destruct Hm as [Hid Hg].
      split; [|split; [|split; [|split]]].
      * intros s Hs. inversion Hs; subst s. auto.
      * intros _ _ s _ _. exists s0; auto.
      * intros _ Hnz s _ _ _. exists s0; auto.
      * intros Hno. destruct (Hno s0 Hin Hid) as [Hnz Hne].
        exfalso. apply Hne, Hg, Hnz.
      * intros; contradiction.
    + assert (Hnone : forall s, In s ss -> specMatches qs s = false)
        by (intros s Hs; apply (find_none _ _ F s Hs)).
      split; [|split; [|split; [|split]]].
      * intros s Hs; discriminate.
      * intros _ Hz s Hs Hid. specialize (Hnone s Hs).
        assert (specMatches qs s = true)
          by (apply specMatches_true; split; [assumption|intro; contradiction]).
        congruence.
      * intros _ Hnz s Hs Hid Hg. specialize (Hnone s Hs).
        assert (specMatches qs s = true)
          by (apply specMatches_true; split; auto).
        congruence.
      * reflexivity.
      * reflexivity.
Qed.

(** The three requests of the specification's example, on the mock
    store. *)
Example service_get_by_id :
  getServiceSubcriber sampleUnmarshal mockServices (mkMsg "1" "_INBOX.1")
  = [("_INBOX.1", MarshalService (Service.mk "1" "test" 1 1))].
Proof. reflexivity. Qed.

Example service_get_unknown_id :
  getServiceSubcriber sampleUnmarshal mockServices (mkMsg "9" "_INBOX.2")
  = [("_INBOX.2", Raw notFound)].
Proof. reflexivity. Qed.

Example service_get_group_mismatch :
  getServiceSubcriber sampleUnmarshal mockServices (mkMsg "2:1" "_INBOX.3")
  = [("_INBOX.3", Raw notFound)].
Proof. reflexivity. Qed.

(** C8: on [service.find] the one reply carries the whole store, whatever
    the message holds: no service is left out, none is added, and two
    messages that differ in their payload get the same list. *)
Theorem service_find_replies_every_service
    (ss : list Service.t) (msg : Msg) :
  findServiceSubcriber ss msg = [(Reply msg, MarshalServices ss)]
  /\ forall data : string,
       findServiceSubcriber ss (mkMsg data (Reply msg))
       = findServiceSubcriber ss msg.
Proof.
  split; [reflexivity|]. intro data. reflexivity.
Qed.

(** On [service.set] the one reply carries the decoded entity with its
    identifier replaced by the one the capability assigns. *)
Lemma service_set_assigns_the_identifier
    (Unmarshal : string -> Service.t) (msg : Msg) :
  exists s,
    createServiceSubcriber Unmarshal msg = [(Reply msg, MarshalService s)]
    /\ Service.ID s = "3"
    /\ Service.Name s = Service.Name (Unmarshal (Data msg))
    /\ Service.GroupID s = Service.GroupID (Unmarshal (Data msg))
    /\ Service.DatacenterID s = Service.DatacenterID (Unmarshal (Data msg)).
Proof.
  eexists. split; [reflexivity|]. simpl. auto.
Qed.

(* ================================================================== *)
(** * Properties of the handlers that hold over any backend *)

Section AnyModel.
Context {W : Type} {M : Model W}.

Lemma groupID_never_differs_from_itself (au : User.t) :
  negb (User.GroupID au =? User.GroupID au) = false.
Proof. rewrite Z.eqb_refl. reflexivity. Qed.

(** The update handler, once its ownership test is known to be dead. *)
Lemma updateDatacenterHandler_eq (c : Context) (w : W) :
  updateDatacenterHandler c w =
  match Map c with
  | None => mkOutcome w [] (Fail ErrBadReqBody)
  | Some d =>
      match FindByID (fst (Atoi (Param c))) w with
      | inl err => mkOutcome w [] (Fail err)
      | inr existing =>
          let '(w', saved) := Save (Datacenter.setCredentials existing d) w in
          mkOutcome w'
            match saved with inl err => [err] | inr _ => [] end
            (Respond (JSONBlob StatusOK (MarshalDatacenter d)))
      end
  end.
Proof.
  unfold updateDatacenterHandler.
  destruct (Map c) as [d|]; [|reflexivity].
  destruct (FindByID _ w) as [err|existing]; [reflexivity|].
  rewrite groupID_never_differs_from_itself.
  destruct (Save _ w) as [w' [err|d']]; reflexivity.
Qed.

(** The only errors the update handler returns are a body that does not
    decode and the error of the lookup. *)
Lemma update_failures (c : Context) (w : W) (e : error) :
  result (updateDatacenterHandler c w) = Fail e ->
  (Map c = None /\ e = ErrBadReqBody)
  \/ FindByID (fst (Atoi (Param c))) w = inl e.
Proof.
  rewrite updateDatacenterHandler_eq.
  destruct (Map c) as [d|]; simpl.
  - destruct (FindByID _ w) as [err|existing]; simpl.
    + intro H; inversion H; auto.
    + destruct (Save _ w) as [w' saved]; simpl; discriminate.
  - intro H; inversion H; auto.
Qed.

(** A failed [Save] in the create handler is logged and answered
    with 200. *)
Lemma create_save_failure (c : Context) (w w' : W) (d : Datacenter.t)
    (lookup err : error) :
  User.GroupID (authenticatedUser c) <> 0 ->
  Map c = Some d ->
  Validate d = None ->
  let stamped := Datacenter.setGroupID d (User.GroupID (authenticatedUser c)) in
  FindByName (Datacenter.Name stamped) w = inl lookup ->
  Save stamped w = (w', inl err) ->
  createDatacenterHandler c w =
  mkOutcome w' [err] (Respond (JSONBlob StatusOK (MarshalDatacenter stamped))).
Proof.
  intros Hg Hm Hv stamped Hn Hs. unfold createDatacenterHandler.
  apply Z.eqb_neq in Hg. rewrite Hg, Hm, Hv.
  fold stamped. rewrite Hn, Hs. reflexivity.
Qed.

(** A failed [Save] in the update handler is logged and answered
    with 200. *)
Lemma update_save_failure (c : Context) (w w' : W)
    (d existing : Datacenter.t) (err : error) :
  Map c = Some d ->
  FindByID (fst (Atoi (Param c))) w = inr existing ->
  Save (Datacenter.setCredentials existing d) w = (w', inl err) ->
  updateDatacenterHandler c w =
  mkOutcome w' [err] (Respond (JSONBlob StatusOK (MarshalDatacenter d))).
Proof.
  intros Hm Hf Hs. rewrite updateDatacenterHandler_eq, Hm, Hf, Hs.
  reflexivity.
Qed.

(** C10: whenever PUT /datacenters/:id writes a response, the status is
    200 and the body is the serialization of the entity decoded from
    the request, whatever was found in the store and whatever [Save]
    answered: a field the request left at its zero value is zero in
    the response. *)
Theorem update_response_is_the_request_entity
    (c : Context) (w : W) (r : Response) :
  result (updateDatacenterHandler c w) = Respond r ->
  exists d existing,
    Map c = Some d
    /\ FindByID (fst (Atoi (Param c))) w = inr existing
    /\ r = JSONBlob StatusOK (MarshalDatacenter d)
    /\ fst (Save (Datacenter.setCredentials existing d) w)
       = world (updateDatacenterHandler c w).
Proof.
  rewrite updateDatacenterHandler_eq.
  destruct (Map c) as [d|]; simpl; [|discriminate].
  destruct (FindByID _ w) as [err|existing]; simpl; [discriminate|].
  destruct (Save _ w) as [w' saved] eqn:Hs; simpl.
  intro H; inversion H. exists d, existing.
  rewrite Hs. repeat split; reflexivity.
Qed.
End AnyModel.

(* ================================================================== *)
(** * The in-memory backend: lists *)

Module BusFacts.
Import Bus.

Lemma freshID_above (ds : list Datacenter.t) (x : Datacenter.t) :
  In x ds -> Datacenter.ID x < freshID ds.
Proof.
  unfold freshID. induction ds as [|y rest IH]; [contradiction|].
  cbn [fold_right List.map In].
  intros [-> | Hin]; [lia|]. specialize (IH Hin). lia.
Qed.

Lemma freshID_positive (ds : list Datacenter.t) : 0 < freshID ds.
Proof.
  unfold freshID. induction ds as [|y rest IH]; cbn [fold_right List.map]; lia.
Qed.

(** Where [find] stops, [replaceFirst] writes. *)
Lemma replaceFirst_found (d e : Datacenter.t) (ds : list Datacenter.t) :
  find (hasID (Datacenter.ID d)) ds = Some e ->
  exists before after,
    ds = before ++ e :: after
    /\ replaceFirst d ds = Some (before ++ d :: after)
    /\ Datacenter.ID e = Datacenter.ID d
    /\ Forall (fun x => Datacenter.ID x <> Datacenter.ID d) before.
Proof.
  induction ds as [|x rest IH]; simpl; [discriminate|].
  unfold hasID at 1 3. destruct (Z.eqb_spec (Datacenter.ID x) (Datacenter.ID d)) as [E|E].
  - intro H; inversion H; subst x. exists [], rest. simpl. auto.
  - intro H. destruct (IH H) as (before & after & -> & Hr & Hid & Hall).
    exists (x :: before), after. rewrite Hr. simpl. auto.
Qed.

Lemma replaceFirst_members (d : Datacenter.t) (ds ds' : list Datacenter.t) :
  replaceFirst d ds = Some ds' ->
  In d ds' /\ forall x, In x ds' -> In x ds \/ x = d.
Proof.
  revert ds'. induction ds as [|y rest IH]; simpl; [discriminate|].
  intros ds'. destruct (hasID (Datacenter.ID d) y).
  - intro H; inversion H; subst ds'. simpl. split; [auto|].
    intros x [<- | Hx]; auto.
  - destruct (replaceFirst d rest) as [rest'|]; simpl; [|discriminate].
    intro H; inversion H; subst ds'. destruct (IH rest' eq_refl) as [Hd Hall].
    simpl. split; [auto|]. intros x [<- | Hx]; [auto|].
    destruct (Hall x Hx); auto.
Qed.

(** What [put] stores and what it answers. *)
Lemma put_members (d d' : Datacenter.t) (ds ds' : list Datacenter.t) :
  put d ds = (ds', d') ->
  Datacenter.GroupID d' = Datacenter.GroupID d
  /\ In d' ds'
  /\ forall x, In x ds' -> In x ds \/ x = d'.
Proof.
  unfold put. destruct (Datacenter.ID d =? 0).
  - intro H; inversion H; subst. split; [reflexivity|].
    split; [apply in_or_app; simpl; auto|].
    intros x Hx. apply in_app_or in Hx. simpl in Hx. intuition.
  - destruct (replaceFirst d ds) as [r|] eqn:R; intro H; inversion H; subst.
    + destruct (replaceFirst_members _ _ R). auto.
    + split; [reflexivity|]. split; [apply in_or_app; simpl; auto|].
      intros x Hx. apply in_app_or in Hx. simpl in Hx. intuition.
Qed.

Lemma find_hasName_some (name : string) (ds : list Datacenter.t) :
  (exists x, In x ds /\ Datacenter.Name x = name) ->
  exists e, find (hasName name) ds = Some e.
Proof.
  intros (x & Hin & Hn).
  destruct (find (hasName name) ds) as [e|] eqn:F; [eauto|].
  apply (find_none _ _ F) in Hin. unfold hasName in Hin.
  rewrite Hn, String.eqb_refl in Hin. discriminate.
Qed.

Lemma find_hasName_none (name : string) (ds : list Datacenter.t) :
  (forall x, In x ds -> Datacenter.Name x <> name) ->
  find (hasName name) ds = None.
Proof.
  intro H. destruct (find (hasName name) ds) as [e|] eqn:F; [|reflexivity].
  apply find_some in F. destruct F as [Hin Hn]. unfold hasName in Hn.
  apply String.eqb_eq in Hn. destruct (H e Hin Hn).
Qed.

Lemma find_after_delete (id : Z) (ds : list Datacenter.t) :
  find (hasID id) (filter (fun x => negb (hasID id x)) ds) = None.
Proof.
  induction ds as [|x rest IH]; simpl; [reflexivity|].
  destruct (hasID id x) eqn:E; simpl; [assumption|].
  rewrite E. assumption.
Qed.

Lemma findByID_inv (id : Z) (w : World) (d : Datacenter.t) :
  findByID id w = inr d ->
  online "datacenter.get" w = true
  /\ find (hasID id) (datacenters w) = Some d
  /\ Datacenter.ID d = id.
Proof.
  unfold findByID, call. destruct (online "datacenter.get" w); [|discriminate].
  destruct (find (hasID id) (datacenters w)) as [e|] eqn:F; simpl; [|discriminate].
  intro H; inversion H; subst e. apply find_some in F as F'.
  destruct F' as [_ Hid]. apply Z.eqb_eq in Hid. auto.
Qed.

Lemma findByID_after_delete (id : Z) (w : World) :
  online "datacenter.get" w = true ->
  findByID id
    (mkWorld (filter (fun x => negb (hasID id x)) (datacenters w))
             (services w) (offline w))
  = inl ErrNotFound.
Proof.
  intro Hget. unfold findByID, call.
  change (online "datacenter.get" (mkWorld _ (services w) (offline w)))
    with (online "datacenter.get" w).
  rewrite Hget. cbn [datacenters]. rewrite find_after_delete. reflexivity.
Qed.

(** [save] keeps every stored datacenter identified. *)
Lemma save_identified (d : Datacenter.t) (w : World) :
  identified w -> identified (fst (save d w)).
Proof.
  unfold identified, save. intro Hw.
  destruct (online "datacenter.set" w); [|assumption].
  destruct (put d (datacenters w)) as [ds' d'] eqn:P. simpl.
  apply Forall_forall. intros x Hx.
  destruct (put_members _ _ P) as (_ & _ & Hall).
  destruct (Hall x Hx) as [Hold | ->].
  - rewrite Forall_forall in Hw. auto.
  - unfold put in P. destruct (Z.eqb_spec (Datacenter.ID d) 0) as [E|E].
    + inversion P; subst. simpl. pose proof (freshID_positive (datacenters w)). lia.
    + destruct (replaceFirst d (datacenters w)); inversion P; subst; assumption.
Qed.
End BusFacts.

(* ================================================================== *)
(** * Properties of the handlers over the in-memory backend *)

Section OnTheBus.
Import Bus BusFacts.

Variable validate : Datacenter.t -> option error.

Local Abbreviation create := (@createDatacenterHandler World (model validate)).
Local Abbreviation update := (@updateDatacenterHandler World (model validate)).
Local Abbreviation delete := (@deleteDatacenterHandler World (model validate)).
Local Abbreviation index := (@getDatacentersHandler World (model validate)).

(** The create handler over the store, step by step. *)
Lemma create_eq (c : Context) (w : World) :
  create c w =
  let au := authenticatedUser c in
  if User.GroupID au =? 0 then
    mkOutcome w [] (Respond (JSONBlob 401 (Bytes unassignedNotice)))
  else
    match Map c with
    | None => mkOutcome w [] (Fail ErrBadReqBody)
    | Some d =>
        match validate d with
        | Some err =>
            mkOutcome w [] (Fail (HTTPError StatusBadRequest (ErrorOf err)))
        | None =>
            let d := Datacenter.setGroupID d (User.GroupID au) in
            match findByName (Datacenter.Name d) w with
            | inr _ =>
                mkOutcome w []
                  (Fail (HTTPError 409 (Literal "Specified datacenter already exists")))
            | inl _ =>
                if online "datacenter.set" w then
                  mkOutcome
                    (mkWorld (fst (put d (datacenters w))) (services w) (offline w))
                    []
                    (Respond (JSONBlob StatusOK
                       (MarshalDatacenter (snd (put d (datacenters w))))))
                else
                  mkOutcome w [ErrTimeout]
                    (Respond (JSONBlob StatusOK (MarshalDatacenter d)))
            end
        end
    end.
Proof.
  unfold createDatacenterHandler. simpl.
  destruct (User.GroupID (authenticatedUser c) =? 0); [reflexivity|].
  destruct (Map c) as [d|]; [|reflexivity].
  destruct (validate d); [reflexivity|].
  destruct (findByName _ w); [|reflexivity].
  unfold save. destruct (online "datacenter.set" w); [|reflexivity].
  destruct (put _ (datacenters w)); reflexivity.
Qed.

(** C2: whenever POST /datacenters/ answers 200 with a datacenter, that
    datacenter carries the group of the authenticated user, whatever
    group the request body named; whatever the request added to or
    changed in the store is that datacenter, and it is in the store
    when [Save] went through (nothing was logged). *)
Theorem create_stamps_the_creators_group
    (c : Context) (w : World) (d' : Datacenter.t) :
  result (create c w)
    = Respond (JSONBlob StatusOK (MarshalDatacenter d')) ->
  Datacenter.GroupID d' = User.GroupID (authenticatedUser c)
  /\ (forall x, In x (datacenters (world (create c w))) ->
        In x (datacenters w) \/ x = d')
  /\ (logged (create c w) = [] ->
        In d' (datacenters (world (create c w)))).
Proof.
  rewrite create_eq. cbv zeta.
  destruct (User.GroupID (authenticatedUser c) =? 0); simpl; [discriminate|].
  destruct (Map c) as [d|]; simpl; [|discriminate].
  destruct (validate d); simpl; [discriminate|].
  destruct (findByName _ w); simpl; [|discriminate].
  destruct (online "datacenter.set" w); simpl.
  - destruct (put _ (datacenters w)) as [ds' d1] eqn:P. simpl.
    intro H; inversion H; subst d1.
    destruct (put_members _ _ P) as (Hg & Hin & Hall).
    simpl in Hg. auto.
  - intro H; inversion H; subst d'. simpl.
    split; [reflexivity|]. split; [auto|discriminate].
Qed.

(** C4: for a request of a user with a group, whose body decodes and
    validates, and with the name lookup answered: if some stored
    datacenter, of whatever group, has the submitted name, the handler
    fails with 409 and the store is as before; if none has it and
    [Save] is answered, the handler answers 200 with the stored
    datacenter, whose identifier is not zero, and, when the request
    brought no identifier, is one that no stored datacenter had. *)
Theorem create_conflict_or_generated_id
    (c : Context) (w : World) (d : Datacenter.t) :
  User.GroupID (authenticatedUser c) <> 0 ->
  Map c = Some d ->
  validate d = None ->
  online "datacenter.get" w = true ->
  ((exists x, In x (datacenters w) /\ Datacenter.Name x = Datacenter.Name d) ->
     result (create c w)
       = Fail (HTTPError Conflict (Literal "Specified datacenter already exists"))
     /\ world (create c w) = w)
  /\ ((forall x, In x (datacenters w) -> Datacenter.Name x <> Datacenter.Name d) ->
      online "datacenter.set" w = true ->
      exists d',
        create c w
          = mkOutcome (mkWorld (fst (put (Datacenter.setGroupID d
                                   (User.GroupID (authenticatedUser c)))
                                   (datacenters w)))
                               (services w) (offline w))
                      [] (Respond (JSONBlob StatusOK (MarshalDatacenter d')))
        /\ In d' (datacenters (world (create c w)))
        /\ Datacenter.Name d' = Datacenter.Name d
        /\ Datacenter.ID d' <> 0
        /\ (Datacenter.ID d = 0 ->
              (forall x, In x (datacenters w) -> Datacenter.ID x <> Datacenter.ID d')
              /\ datacenters (world (create c w)) = datacenters w ++ [d'])).
Proof.
  intros Hg Hm Hv Hget. apply Z.eqb_neq in Hg.
  rewrite create_eq. cbv zeta. rewrite Hg, Hm, Hv.
  unfold findByName, call. rewrite Hget. simpl. split.
  - intro Hex. destruct (@find_hasName_some _ _ Hex) as [e ->]. simpl. auto.
  - intros Hno Hset. rewrite (@find_hasName_none _ _ Hno), Hset. simpl.
    set (g := User.GroupID (authenticatedUser c)).
    destruct (put (Datacenter.setGroupID d g) (datacenters w)) as [ds' d'] eqn:P.
    exists d'. simpl. split; [reflexivity|].
    destruct (put_members _ _ P) as (_ & Hin & _).
    split; [assumption|].
    unfold put in P. simpl in P.
    destruct (Z.eqb_spec (Datacenter.ID d) 0) as [E|E].
    + inversion P; subst. simpl.
      pose proof (freshID_positive (datacenters w)) as Hpos.
      split; [reflexivity|]. split; [lia|]. intros _. split; [|reflexivity].
      intros x Hx. pose proof (freshID_above _ _ Hx). lia.
    + assert (d' = Datacenter.setGroupID d g) as ->
        by (destruct (replaceFirst _ (datacenters w)); inversion P; reflexivity).
      simpl. split; [reflexivity|]. split; [assumption|]. intro; contradiction.
Qed.

(** C6: with the [find] capability answering, GET /datacenters/ answers
    200 with a list that is, for an admin, every stored datacenter of
    every group and, for anyone else, the stored datacenters of the
    caller's group, each with Password, AccessKeyID and
    SecretAccessKey emptied and its other fields as stored. *)
Theorem list_is_scoped_and_redacted (c : Context) (w : World) :
  online "datacenter.find" w = true ->
  let au := authenticatedUser c in
  exists ds,
    index c w = mkOutcome w [] (Respond (JSONBlob StatusOK (MarshalDatacenters ds)))
    /\ (User.Admin au = true -> ds = List.map redact (datacenters w))
    /\ (User.Admin au = false ->
          ds = List.map redact (filter (inGroup (User.GroupID au)) (datacenters w))
          /\ Forall (fun d => Datacenter.GroupID d = User.GroupID au) ds)
    /\ Forall (fun d => Datacenter.Password d = ""
                        /\ Datacenter.AccessKeyID d = ""
                        /\ Datacenter.SecretAccessKey d = "") ds
    /\ (forall d, In d ds -> exists x, In x (datacenters w)
          /\ Datacenter.ID d = Datacenter.ID x
          /\ Datacenter.GroupID d = Datacenter.GroupID x
          /\ Datacenter.Name d = Datacenter.Name x
          /\ Datacenter.Type_ d = Datacenter.Type_ x
          /\ Datacenter.Username d = Datacenter.Username x
          /\ Datacenter.VCloudURL d = Datacenter.VCloudURL x).
Proof.
  intros Hfind au.
  unfold getDatacentersHandler. simpl. fold au.
  unfold findAll, userDatacenters, call. rewrite Hfind.
  assert (Hred : forall l, Forall (fun d => Datacenter.Password d = ""
                        /\ Datacenter.AccessKeyID d = ""
                        /\ Datacenter.SecretAccessKey d = "")
                     (List.map (fun d => improve (redact d)) l)).
  { intro l. apply Forall_forall. intros d Hd. apply in_map_iff in Hd.
    destruct Hd as (x & <- & _). simpl. auto. }
  assert (Hsrc : forall l, (forall x, In x l -> In x (datacenters w)) ->
            forall d, In d (List.map (fun d => improve (redact d)) l) ->
            exists x, In x (datacenters w)
          /\ Datacenter.ID d = Datacenter.ID x
          /\ Datacenter.GroupID d = Datacenter.GroupID x
          /\ Datacenter.Name d = Datacenter.Name x
          /\ Datacenter.Type_ d = Datacenter.Type_ x
          /\ Datacenter.Username d = Datacenter.Username x
          /\ Datacenter.VCloudURL d = Datacenter.VCloudURL x).
  { intros l Hl d Hd. apply in_map_iff in Hd. destruct Hd as (x & <- & Hx).
    exists x. simpl. repeat split; auto. }
  destruct (User.Admin au) eqn:A; eexists; (split; [reflexivity|]).
  - split; [reflexivity|]. split; [discriminate|]. split; [apply Hred|].
    apply Hsrc. auto.
  - split; [discriminate|]. split.
    + intros _. split; [reflexivity|].
      apply Forall_forall. intros d Hd. apply in_map_iff in Hd.
      destruct Hd as (x & <- & Hx). apply filter_In in Hx.
      destruct Hx as [_ Hx]. unfold inGroup in Hx. apply Z.eqb_eq in Hx.
      simpl. assumption.
    + split; [apply Hred|]. apply Hsrc.
      intros x Hx. apply filter_In in Hx. tauto.
Qed.

(** C3, as the code has it: for a caller in the group of the datacenter
    that the lookup returns, and with the services lookup answered: if
    some service refers to the datacenter, the handler fails with
    status 400 (not 409) and the store is as before; if none does and
    the delete call is answered, the handler answers 200 with an empty
    body, no datacenter with that identifier is left, and every other
    datacenter stays. *)
Theorem delete_refused_with_400_while_referenced
    (c : Context) (w : World) (d : Datacenter.t) :
  findByID (fst (Atoi (Param c))) w = inr d ->
  User.GroupID (authenticatedUser c) = Datacenter.GroupID d ->
  online "service.find" w = true ->
  ((exists s, In s (services w) /\ Service.DatacenterID s = Datacenter.ID d) ->
     delete c w
     = mkOutcome w []
         (Fail (HTTPError StatusBadRequest
            (Literal "Existing services are referring to this datacenter."))))
  /\ ((forall s, In s (services w) -> Service.DatacenterID s <> Datacenter.ID d) ->
      online "datacenter.del" w = true ->
      result (delete c w) = Respond (String_ StatusOK "")
      /\ findByID (Datacenter.ID d) (world (delete c w)) = inl ErrNotFound
      /\ (forall x, In x (datacenters (world (delete c w))) <->
            In x (datacenters w) /\ Datacenter.ID x <> Datacenter.ID d)
      /\ services (world (delete c w)) = services w).
Proof.
  intros Hfind Hgroup Hsvc.
  unfold deleteDatacenterHandler. simpl. rewrite Hfind, Hgroup, Z.eqb_refl. simpl.
  unfold servicesOf, call. rewrite Hsvc.
  apply findByID_inv in Hfind. destruct Hfind as (Hget & _ & _).
  split.
  - intros (s & Hin & Href).
    destruct (filter (refersTo d) (services w)) as [|s0 rest] eqn:F.
    + assert (In s (filter (refersTo d) (services w))) as Hs
        by (apply filter_In; split; [assumption|];
            unfold refersTo; apply Z.eqb_eq; assumption).
      rewrite F in Hs. destruct Hs.
    + reflexivity.
  - intros Hnone Hdel.
    assert (filter (refersTo d) (services w) = []) as ->.
    { destruct (filter (refersTo d) (services w)) as [|s0 rest] eqn:F; [reflexivity|].
      assert (In s0 (filter (refersTo d) (services w))) as Hs
        by (rewrite F; simpl; auto).
      apply filter_In in Hs. destruct Hs as [Hin Href].
      unfold refersTo in Href. apply Z.eqb_eq in Href.
      destruct (Hnone s0 Hin Href). }
    cbn [List.length Z.of_nat Z.ltb Z.compare].
    unfold Bus.delete. rewrite Hdel. cbn [world result].
    split; [reflexivity|]. split.
    + apply findByID_after_delete. assumption.
    + split; [|reflexivity]. intro x. cbn [datacenters]. rewrite filter_In.
      unfold hasID. rewrite negb_true_iff, Z.eqb_neq. tauto.
Qed.

(** C9: whenever PUT /datacenters/:id answers, with every stored
    datacenter identified, the store before and after differ at most
    in the place of the datacenter that was found: there ID, Name,
    Type, GroupID and VCloudURL are as before, and Username, Password,
    AccessKeyID and SecretAccessKey are those of the request once
    [Save] went through (nothing was logged).  The group of the caller
    is not written and the names in the store are not looked at. *)
Theorem update_changes_credentials_only
    (c : Context) (w : World) (r : Response) :
  identified w ->
  result (update c w) = Respond r ->
  exists d existing before after updated,
    Map c = Some d
    /\ findByID (fst (Atoi (Param c))) w = inr existing
    /\ datacenters w = before ++ existing :: after
    /\ world (update c w)
       = mkWorld (before ++ updated :: after) (services w) (offline w)
    /\ Datacenter.ID updated = Datacenter.ID existing
    /\ Datacenter.Name updated = Datacenter.Name existing
    /\ Datacenter.Type_ updated = Datacenter.Type_ existing
    /\ Datacenter.GroupID updated = Datacenter.GroupID existing
    /\ Datacenter.VCloudURL updated = Datacenter.VCloudURL existing
    /\ (logged (update c w) = [] ->
          Datacenter.Username updated = Datacenter.Username d
          /\ Datacenter.Password updated = Datacenter.Password d
          /\ Datacenter.AccessKeyID updated = Datacenter.AccessKeyID d
          /\ Datacenter.SecretAccessKey updated = Datacenter.SecretAccessKey d)
    /\ (logged (update c w) <> [] -> updated = existing).
Proof.
  intros Hid. rewrite updateDatacenterHandler_eq.
  destruct (Map c) as [d|]; simpl; [|discriminate].
  destruct (findByID (fst (Atoi (Param c))) w) as [err|existing] eqn:Hfind;
    simpl; [discriminate|].
  intros _. exists d, existing.
  apply findByID_inv in Hfind as Hinv. destruct Hinv as (_ & Hf & Heq).
  set (updated := Datacenter.setCredentials existing d).
  assert (Hf' : find (hasID (Datacenter.ID updated)) (datacenters w) = Some existing)
    by (simpl; rewrite Heq; assumption).
  destruct (replaceFirst_found updated _ Hf')
    as (before & after & Hsplit & Hrep & _ & _).
  exists before, after.
  unfold save. destruct (online "datacenter.set" w).
  - assert (Hnz : Datacenter.ID updated <> 0).
    { apply find_some in Hf. destruct Hf as [Hin _].
      unfold identified in Hid. rewrite Forall_forall in Hid.
      apply (Hid existing Hin). }
    unfold put. apply Z.eqb_neq in Hnz. rewrite Hnz, Hrep.
    exists updated. simpl.
    split; [reflexivity|]. split; [reflexivity|]. split; [assumption|].
    repeat (split; [reflexivity|]).
    split; [intros _; repeat split|].
    intro H. exfalso. apply H. reflexivity.
  - exists existing. simpl.
    split; [reflexivity|]. split; [reflexivity|]. split; [assumption|].
    split; [rewrite <- Hsplit; destruct w; reflexivity|].
    repeat (split; [reflexivity|]).
    split; [discriminate|reflexivity].
Qed.
End OnTheBus.

(* ================================================================== *)
(** * The handlers on the sample store *)

(** C1: PUT /datacenters/1 by a non-admin of group 2 on a datacenter of
    group 1.  The specification asks for Unauthorized and an untouched
    store; the handler compares the caller's group with itself, answers
    200 and saves the credentials of the request. *)
Theorem update_by_another_group_goes_through :
  User.Admin (authenticatedUser putByOutsider) = false
  /\ Bus.findByID (fst (Atoi (Param putByOutsider))) sampleWorld = inr dcTest
  /\ User.GroupID (authenticatedUser putByOutsider) <> Datacenter.GroupID dcTest
  /\ @updateDatacenterHandler _ busModel putByOutsider sampleWorld
     = mkOutcome (Bus.mkWorld [dcTestUpdated; dcOther] mockServices []) []
         (Respond (JSONBlob StatusOK (MarshalDatacenter newCredentials)))
  /\ result (@updateDatacenterHandler _ busModel putByOutsider sampleWorld)
     <> Fail ErrUnauthorized.
Proof.
  split; [reflexivity|]. split; [reflexivity|].
  split; [discriminate|]. split; [reflexivity|discriminate].
Qed.

(** C7: POST and PUT while [Save] fails (nobody answers on
    [datacenter.set]).  The specification asks for status 500; both
    handlers write the error to the log and answer 200, and nothing is
    stored. *)
Theorem save_failure_is_answered_with_200 :
  (forall d, Bus.save d setDownWorld = (setDownWorld, inl ErrTimeout))
  /\ @createDatacenterHandler _ busModel postByUserOne setDownWorld
     = mkOutcome setDownWorld [ErrTimeout]
         (Respond (JSONBlob StatusOK
            (MarshalDatacenter (Datacenter.setGroupID newDatacenter 1))))
  /\ @updateDatacenterHandler _ busModel putByOwner setDownWorld
     = mkOutcome setDownWorld [ErrTimeout]
         (Respond (JSONBlob StatusOK (MarshalDatacenter newCredentials)))
  /\ status (result (@createDatacenterHandler _ busModel postByUserOne setDownWorld))
     <> Some InternalError
  /\ status (result (@updateDatacenterHandler _ busModel putByOwner setDownWorld))
     <> Some InternalError.
Proof.
  split; [intro d; reflexivity|].
  split; [reflexivity|]. split; [reflexivity|].
  split; discriminate.
Qed.

(** C3, as stated, fails: DELETE /datacenters/1 by a member of its group
    while service "1" refers to it is refused with status 400, which is
    not Conflict (409). *)
Lemma delete_referenced_is_not_a_conflict :
  ~ deleteSentence deleteOneByUserOne sampleWorld.
Proof.
  intro H. destruct (H dcTest eq_refl eq_refl) as [Href _].
  destruct Href as [Hstatus _]; [discriminate|].
  vm_compute in Hstatus. discriminate.
Qed.

Example delete_referenced_status :
  status (result (@deleteDatacenterHandler _ busModel deleteOneByUserOne sampleWorld))
  = Some 400.
Proof. reflexivity. Qed.

(** The amended C3 on the sample store: datacenter 1 is referred to by
    service "1", datacenter 2 by no service. *)
Lemma delete_refused_with_400_while_referenced_witness :
  @deleteDatacenterHandler _ busModel deleteOneByUserOne sampleWorld
  = mkOutcome sampleWorld []
      (Fail (HTTPError StatusBadRequest
         (Literal "Existing services are referring to this datacenter.")))
  /\ result (@deleteDatacenterHandler _ busModel deleteTwoByUserTwo sampleWorld)
     = Respond (String_ StatusOK "")
  /\ Bus.findByID 2
       (world (@deleteDatacenterHandler _ busModel deleteTwoByUserTwo sampleWorld))
     = inl ErrNotFound.
Proof.
  destruct (@delete_refused_with_400_while_referenced requireName
              deleteOneByUserOne sampleWorld dcTest eq_refl eq_refl eq_refl)
    as [Hreferenced _].
  destruct (@delete_refused_with_400_while_referenced requireName
              deleteTwoByUserTwo sampleWorld dcOther eq_refl eq_refl eq_refl)
    as [_ Hfree].
  split.
  - apply Hreferenced. exists (Service.mk "1" "test" 1 1).
    split; [simpl; auto | reflexivity].
  - assert (Hnone : forall s, In s (Bus.services sampleWorld) ->
                Service.DatacenterID s <> Datacenter.ID dcOther)
      by (intros s [<- | [<- | []]]; discriminate).
    destruct (Hfree Hnone eq_refl) as (Hok & Hgone & _).
    split; assumption.
Defined.

Lemma create_stamps_the_creators_group_witness :
  Datacenter.GroupID newDatacenter = 7
  /\ Datacenter.GroupID createdDatacenter = User.GroupID userOne
  /\ In createdDatacenter
       (Bus.datacenters
          (world (@createDatacenterHandler _ busModel postByUserOne sampleWorld))).
Proof.
  split; [reflexivity|].
  destruct (create_stamps_the_creators_group requireName
              postByUserOne sampleWorld (d' := createdDatacenter) eq_refl)
    as (Hgroup & _ & Hstored).
  split; [exact Hgroup | exact (Hstored eq_refl)].
Defined.

(** C4, as stated, fails: POST /datacenters/ with the name [test], which
    a stored datacenter has, while the name lookup is not answered
    ([FindByName] returns an error).  The handler asks only whether the
    lookup returned no error, so it goes on: it answers 200 and a second
    datacenter named [test] is saved. *)
Lemma create_of_a_taken_name_goes_through :
  ~ createSentence postDuplicateByUserTwo getDownWorld.
Proof.
  intro H. destruct (H duplicateDatacenter eq_refl) as [Htaken _].
  destruct Htaken as [Hstatus _].
  - exists dcTest. split; [simpl; auto | reflexivity].
  - vm_compute in Hstatus. discriminate.
Qed.

Example create_of_a_taken_name_run :
  @createDatacenterHandler _ busModel postDuplicateByUserTwo getDownWorld
  = mkOutcome
      (Bus.mkWorld [dcTest; dcOther; createdDuplicate] mockServices
         ["datacenter.get"])
      [] (Respond (JSONBlob StatusOK (MarshalDatacenter createdDuplicate))).
Proof. reflexivity. Qed.

Lemma create_conflict_or_generated_id_witness :
  (result (@createDatacenterHandler _ busModel postDuplicateByUserTwo sampleWorld)
   = Fail (HTTPError Conflict (Literal "Specified datacenter already exists"))
   /\ world (@createDatacenterHandler _ busModel postDuplicateByUserTwo sampleWorld)
      = sampleWorld)
  /\ exists d',
       result (@createDatacenterHandler _ busModel postByUserOne sampleWorld)
       = Respond (JSONBlob StatusOK (MarshalDatacenter d'))
       /\ Datacenter.ID d' <> 0
       /\ (forall x, In x (Bus.datacenters sampleWorld) ->
             Datacenter.ID x <> Datacenter.ID d')
       /\ Bus.datacenters
            (world (@createDatacenterHandler _ busModel postByUserOne sampleWorld))
          = Bus.datacenters sampleWorld ++ [d'].
Proof.
  split.
  - apply (@create_conflict_or_generated_id requireName
             postDuplicateByUserTwo sampleWorld duplicateDatacenter);
      [discriminate | reflexivity | reflexivity | reflexivity |].
    exists dcTest. split; [simpl; auto | reflexivity].
  - assert (Hg : User.GroupID (authenticatedUser postByUserOne) <> 0)
      by discriminate.
    destruct (@create_conflict_or_generated_id requireName
                postByUserOne sampleWorld newDatacenter
                Hg eq_refl eq_refl eq_refl) as [_ Hunique].
    assert (Hnone : forall x, In x (Bus.datacenters sampleWorld) ->
                Datacenter.Name x <> Datacenter.Name newDatacenter)
      by (intros x [<- | [<- | []]]; discriminate).
    destruct (Hunique Hnone eq_refl)
      as (d' & Hrun & _ & _ & Hnz & Hfresh).
    destruct (Hfresh eq_refl) as [Hnew Hstore].
    exists d'. unfold busModel. rewrite Hrun in Hstore |- *.
    split; [reflexivity|]. split; [exact Hnz|].
    split; [exact Hnew | exact Hstore].
Defined.

Lemma list_is_scoped_and_redacted_witness :
  (exists ds,
     @getDatacentersHandler _ busModel listByUserTwo sampleWorld
     = mkOutcome sampleWorld [] (Respond (JSONBlob StatusOK (MarshalDatacenters ds)))
     /\ Forall (fun d => Datacenter.GroupID d = 2) ds
     /\ Forall (fun d => Datacenter.Password d = ""
                         /\ Datacenter.AccessKeyID d = ""
                         /\ Datacenter.SecretAccessKey d = "") ds)
  /\ (exists ds,
     @getDatacentersHandler _ busModel listByAdmin sampleWorld
     = mkOutcome sampleWorld [] (Respond (JSONBlob StatusOK (MarshalDatacenters ds)))
     /\ ds = List.map Bus.redact [dcTest; dcOther]).
Proof.
  split.
  - destruct (@list_is_scoped_and_redacted requireName listByUserTwo sampleWorld eq_refl)
      as (ds & Hrun & _ & Hscoped & Hredacted & _).
    exists ds. split; [exact Hrun|].
    split; [exact (proj2 (Hscoped eq_refl)) | exact Hredacted].
  - destruct (@list_is_scoped_and_redacted requireName listByAdmin sampleWorld eq_refl)
      as (ds & Hrun & Hall & _).
    exists ds. split; [exact Hrun | exact (Hall eq_refl)].
Defined.

Lemma update_changes_credentials_only_witness :
  exists d existing before after updated,
    Map putByOwner = Some d
    /\ Bus.findByID (fst (Atoi (Param putByOwner))) sampleWorld = inr existing
    /\ Bus.datacenters sampleWorld = before ++ existing :: after
    /\ world (@updateDatacenterHandler _ busModel putByOwner sampleWorld)
       = Bus.mkWorld (before ++ updated :: after)
           (Bus.services sampleWorld) (Bus.offline sampleWorld)
    /\ Datacenter.Name updated = Datacenter.Name existing
    /\ Datacenter.GroupID updated = Datacenter.GroupID existing
    /\ Datacenter.Password updated = Datacenter.Password d.
Proof.
  assert (Hid : Bus.identified sampleWorld)
    by (repeat constructor; discriminate).
  destruct (@update_changes_credentials_only requireName
              putByOwner sampleWorld
              (JSONBlob StatusOK (MarshalDatacenter newCredentials))
              Hid eq_refl)
    as (d & existing & before & after & updated & Hmap & Hfind & Hsplit & Hrun
        & _ & Hname & _ & Hgroup & _ & Hcreds & _).
  exists d, existing, before, after, updated.
  destruct (Hcreds eq_refl) as (_ & Hpw & _).
  repeat (split; [assumption|]). assumption.
Defined.

(** C10 on the sample store: the response repeats the request entity,
    whose Name is empty, while the stored datacenter keeps its name. *)
Lemma update_response_is_the_request_entity_witness :
  exists d existing,
    Map putByOwner = Some d
    /\ Bus.findByID (fst (Atoi (Param putByOwner))) sampleWorld = inr existing
    /\ JSONBlob StatusOK (MarshalDatacenter newCredentials)
       = JSONBlob StatusOK (MarshalDatacenter d)
    /\ fst (Bus.save (Datacenter.setCredentials existing d) sampleWorld)
       = world (@updateDatacenterHandler _ busModel putByOwner sampleWorld).
Proof.
  apply (update_response_is_the_request_entity (M := busModel)
           putByOwner sampleWorld). reflexivity.
Defined.

Example update_response_and_store_differ :
  let o := @updateDatacenterHandler _ busModel putByOwner sampleWorld in
  result o = Respond (JSONBlob StatusOK (MarshalDatacenter newCredentials))
  /\ Datacenter.Name newCredentials = ""
  /\ Bus.findByID 1 (world o) = inr dcTestUpdated
  /\ Datacenter.Name dcTestUpdated = "test".
Proof. repeat split. Qed.

(* ================================================================== *)
(** * More on the handlers over any backend *)

Section AnyModelFurther.
Context {W : Type} {M : Model W}.

(** The store a handler leaves is the one it found or the one [Save]
    (for create and update) or [Delete] (for delete) answered with. *)
Lemma create_world (c : Context) (w : W) :
  world (createDatacenterHandler c w) = w
  \/ exists d, world (createDatacenterHandler c w) = fst (Save d w).
Proof.
  unfold createDatacenterHandler.
  destruct (User.GroupID (authenticatedUser c) =? 0); [left; reflexivity|].
  destruct (Map c) as [d|]; [|left; reflexivity].
  destruct (Validate d); [left; reflexivity|].
  destruct (FindByName _ w); [|left; reflexivity].
  right. eexists. destruct (Save _ w) as [w' [err|d']] eqn:S;
    rewrite S; reflexivity.
Qed.

Lemma update_world (c : Context) (w : W) :
  world (updateDatacenterHandler c w) = w
  \/ exists d, world (updateDatacenterHandler c w) = fst (Save d w).
Proof.
  rewrite updateDatacenterHandler_eq.
  destruct (Map c) as [d|]; [|left; reflexivity].
  destruct (FindByID _ w) as [err|existing]; [left; reflexivity|].
  right. eexists. destruct (Save _ w) as [w' saved] eqn:S.
  rewrite S. reflexivity.
Qed.

(** X1: GET /datacenters/:id reads neither the token nor the body: the
    answer is the datacenter as [FindByID] returned it, unredacted and
    for any caller, or the error of the lookup; the store is left as it
    was. *)
Theorem get_one_ignores_the_caller
    (c : Context) (w : W) (u : User.t) (b : option Datacenter.t) :
  getDatacenterHandler (mkContext u (Param c) b) w = getDatacenterHandler c w
  /\ world (getDatacenterHandler c w) = w
  /\ (forall d, FindByID (fst (Atoi (Param c))) w = inr d ->
        result (getDatacenterHandler c w)
        = Respond (JSONBlob StatusOK (MarshalDatacenter d)))
  /\ (forall e, FindByID (fst (Atoi (Param c))) w = inl e ->
        result (getDatacenterHandler c w) = Fail e).
Proof.
  unfold getDatacenterHandler. simpl.
  split; [reflexivity|].
  destruct (FindByID (fst (Atoi (Param c))) w) as [err|d]; simpl.
  - split; [reflexivity|]. split; [discriminate|].
    intros e H; inversion H; reflexivity.
  - split; [reflexivity|]. split; [|discriminate].
    intros d0 H; inversion H; reflexivity.
Qed.

(** X2: PUT /datacenters/:id does not depend on who calls: any two
    callers get the same outcome on the same parameter, body and store.
    The handler fails only on a body that does not decode or with the
    error of the lookup. *)
Theorem update_ignores_the_caller
    (c : Context) (w : W) (u : User.t) :
  updateDatacenterHandler (mkContext u (Param c) (body c)) w
  = updateDatacenterHandler c w
  /\ forall e, result (updateDatacenterHandler c w) = Fail e ->
       (Map c = None /\ e = ErrBadReqBody)
       \/ FindByID (fst (Atoi (Param c))) w = inl e.
Proof.
  split.
  - rewrite !updateDatacenterHandler_eq. reflexivity.
  - intros e. rewrite updateDatacenterHandler_eq.
    destruct (Map c) as [d|]; simpl.
    + destruct (FindByID _ w) as [err|existing]; simpl.
      * intro H; inversion H; auto.
      * destruct (Save _ w) as [w' saved]; simpl; discriminate.
    + intro H; inversion H; auto.
Qed.

(** X3: when POST /datacenters/ fails, the store is as before, nothing
    was logged, and the error is one of three: a body that does not
    decode, the validation error wrapped in a 400, or the 409 of a name
    that [FindByName] found.  An error of [FindByName] or of [Save] is
    never returned. *)
Theorem create_failures_leave_the_store
    (c : Context) (w : W) (e : error) :
  result (createDatacenterHandler c w) = Fail e ->
  world (createDatacenterHandler c w) = w
  /\ logged (createDatacenterHandler c w) = []
  /\ User.GroupID (authenticatedUser c) <> 0
  /\ ((Map c = None /\ e = ErrBadReqBody)
      \/ (exists d verr,
            Map c = Some d /\ Validate d = Some verr
            /\ e = HTTPError StatusBadRequest (ErrorOf verr))
      \/ (exists d taken,
            Map c = Some d /\ Validate d = None
            /\ FindByName (Datacenter.Name d) w = inr taken
            /\ e = HTTPError 409 (Literal "Specified datacenter already exists"))).
Proof.
  unfold createDatacenterHandler.
  destruct (Z.eqb_spec (User.GroupID (authenticatedUser c)) 0) as [G|G];
    simpl; [discriminate|].
  destruct (Map c) as [d|]; simpl.
  - destruct (Validate d) as [verr|] eqn:V; simpl.
    + intro H; inversion H. repeat (split; [trivial|]).
      right; left. exists d, verr. auto.
    + destruct (FindByName (Datacenter.Name d) w) as [lookup|taken] eqn:F; simpl.
      * destruct (Save _ w) as [w' [err|d']]; simpl; discriminate.
      * intro H; inversion H. repeat (split; [trivial|]).
        right; right. exists d, taken. auto.
  - intro H; inversion H. repeat (split; [trivial|]). left. auto.
Qed.

(** X4: the create handler takes any error of the name lookup, a
    timeout as much as not-found, for a free name: it goes on to [Save]
    and answers 200. *)
Theorem create_takes_a_failed_lookup_for_a_free_name
    (c : Context) (w : W) (d : Datacenter.t) (lookup : error) :
  User.GroupID (authenticatedUser c) <> 0 ->
  Map c = Some d ->
  Validate d = None ->
  FindByName (Datacenter.Name d) w = inl lookup ->
  world (createDatacenterHandler c w)
  = fst (Save (Datacenter.setGroupID d (User.GroupID (authenticatedUser c))) w)
  /\ status (result (createDatacenterHandler c w)) = Some StatusOK.
Proof.
  intros G Hm Hv Hf. apply Z.eqb_neq in G.
  unfold createDatacenterHandler. rewrite G, Hm, Hv. simpl. rewrite Hf.
  destruct (Save _ w) as [w' [err|d']]; simpl; auto.
Qed.

(** X5: DELETE /datacenters/:id calls [Delete] only on a datacenter of
    the caller's own group for which the services lookup answered with
    no service; in every other case the store is as before. *)
Theorem delete_only_own_unreferenced (c : Context) (w : W) :
  world (deleteDatacenterHandler c w) = w
  \/ exists d,
       FindByID (fst (Atoi (Param c))) w = inr d
       /\ User.GroupID (authenticatedUser c) = Datacenter.GroupID d
       /\ Services d w = inr []
       /\ world (deleteDatacenterHandler c w) = fst (Delete d w).
Proof.
  unfold deleteDatacenterHandler.
  destruct (FindByID _ w) as [err|d] eqn:F; [left; reflexivity|].
  destruct (Z.eqb_spec (User.GroupID (authenticatedUser c)) (Datacenter.GroupID d))
    as [G|G]; simpl; [|left; reflexivity].
  destruct (Services d w) as [serr|ss] eqn:S; [left; reflexivity|].
  destruct ss as [|s rest]; [|left; reflexivity].
  right. exists d. simpl. destruct (Delete d w) as [w' [derr|]]; simpl; auto.
Qed.

(** X6: a caller whose group differs from the datacenter's gets
    [ErrUnauthorized] from DELETE, admin or not; the services are not
    looked up and the store is as before. *)
Theorem delete_of_another_group_is_unauthorized
    (c : Context) (w : W) (d : Datacenter.t) :
  FindByID (fst (Atoi (Param c))) w = inr d ->
  User.GroupID (authenticatedUser c) <> Datacenter.GroupID d ->
  deleteDatacenterHandler c w = mkOutcome w [] (Fail ErrUnauthorized).
Proof.
  intros F G. unfold deleteDatacenterHandler. rewrite F.
  apply Z.eqb_neq in G. rewrite G. reflexivity.
Qed.

(** X7: the errors of DELETE /datacenters/:id: the error of the lookup
    as it is, [ErrUnauthorized] exactly for another group's datacenter,
    the error of the services lookup wrapped in a 500, the 400 of a
    referenced datacenter, or the error of [Delete] as it is. *)
Theorem delete_failures (c : Context) (w : W) (e : error) :
  result (deleteDatacenterHandler c w) = Fail e ->
  FindByID (fst (Atoi (Param c))) w = inl e
  \/ exists d,
       FindByID (fst (Atoi (Param c))) w = inr d
       /\ ((User.GroupID (authenticatedUser c) <> Datacenter.GroupID d
            /\ e = ErrUnauthorized)
           \/ (User.GroupID (authenticatedUser c) = Datacenter.GroupID d
               /\ ((exists serr, Services d w = inl serr
                      /\ e = HTTPError 500 (ErrorOf serr))
                   \/ (exists s rest, Services d w = inr (s :: rest)
                      /\ e = HTTPError 400
                             (Literal "Existing services are referring to this datacenter."))
                   \/ (Services d w = inr [] /\ snd (Delete d w) = Some e)))).
Proof.
  unfold deleteDatacenterHandler.
  destruct (FindByID _ w) as [err|d] eqn:F; simpl.
  - intro H; inversion H; auto.
  - intro H. right. exists d. split; [reflexivity|].
    destruct (Z.eqb_spec (User.GroupID (authenticatedUser c)) (Datacenter.GroupID d))
      as [G|G]; simpl in *.
    + right. split; [assumption|].
      destruct (Services d w) as [serr|ss] eqn:S; simpl in *.
      * inversion H. left. eauto.
      * destruct ss as [|s rest]; simpl in *.
        -- destruct (Delete d w) as [w' [derr|]]; simpl in *; [|discriminate].
           inversion H. right; right. auto.
        -- inversion H. right; left. eauto.
    + inversion H. left. auto.
Qed.
End AnyModelFurther.

(* ================================================================== *)
(** * The path parameter *)

Lemma parseUint_range (s : string) (n : Z) :
  0 <= n <= 18446744073709551615 ->
  0 <= fst (parseUint s n) <= 18446744073709551615.
Proof.
  revert n. induction s as [|c rest IH]; cbn [parseUint]; intros n Hn.
  - exact Hn.
  - unfold digitVal. cbv zeta.
    destruct ((48 <=? Z.of_nat (nat_of_ascii c)) && (Z.of_nat (nat_of_ascii c) <=? 57))
      eqn:D; [|cbn [fst]; lia].
    apply andb_true_iff in D. destruct D as [D1 D2].
    apply Z.leb_le in D1. apply Z.leb_le in D2.
    change (maxUint64 / 10 + 1) with 1844674407370955162.
    change maxUint64 with 18446744073709551615.
    destruct (Z.geb_spec n 1844674407370955162); [cbn [fst]; lia|].
    destruct (Z.gtb_spec (n * 10 + (Z.of_nat (nat_of_ascii c) - 48))
                18446744073709551615); [cbn [fst]; lia|].
    apply IH. lia.
Qed.

Lemma two_to_63 : 2 ^ 63 = 9223372036854775808.
Proof. reflexivity. Qed.

(** The last step of [strconv.ParseInt]: the unsigned value is clamped
    to the range of the signed one. *)
Lemma clamp_value (neg : bool) (un : Z) :
  0 <= un ->
  let r := if negb neg && (un >=? 2 ^ 63) then (maxInt, false)
           else if neg && (un >? 2 ^ 63) then (minInt, false)
           else (if neg then - un else un, true) in
  minInt <= fst r <= maxInt
  /\ (snd r = false -> fst r = 0 \/ fst r = minInt \/ fst r = maxInt).
Proof.
  intro Hun. unfold minInt, maxInt. rewrite two_to_63.
  destruct neg; cbn [negb andb].
  - destruct (Z.gtb_spec un 9223372036854775808); cbn [fst snd]; split;
      try lia; auto; discriminate.
  - destruct (Z.geb_spec un 9223372036854775808); cbn [fst snd]; split;
      try lia; auto; discriminate.
Qed.

(** X8: the identifier the handlers take from the path parameter is
    always a 64-bit integer, and when the parameter is no such integer
    it is 0 or one of the two bounds. *)
Theorem Atoi_value (s : string) :
  minInt <= fst (Atoi s) <= maxInt
  /\ (snd (Atoi s) = false ->
        fst (Atoi s) = 0 \/ fst (Atoi s) = minInt \/ fst (Atoi s) = maxInt).
Proof.
  assert (Hzero : minInt <= fst (0, false) <= maxInt
                  /\ (snd (0, false) = false ->
                      fst (0, false) = 0 \/ fst (0, false) = minInt
                      \/ fst (0, false) = maxInt))
    by (unfold minInt, maxInt; rewrite two_to_63; cbn [fst snd]; split; [lia|auto]).
  unfold Atoi.
  match goal with
  | |- context [let '(_, _) := ?p in _] => destruct p as [neg rest]
  end.
  destruct rest as [|a r]; [exact Hzero|].
  cbv beta iota.
  pose proof (@parseUint_range (String a r) 0 ltac:(lia)) as R.
  destruct (parseUint (String a r) 0) as [un err]. cbn [fst] in R.
  destruct err;
    [apply clamp_value; lia | exact Hzero | apply clamp_value; lia].
Qed.

(** A bound is answered as soon as the digits overflow, whatever
    follows them; a byte that is no digit before that gives 0. *)
Example Atoi_overflow_then_letter :
  Atoi "99999999999999999999x" = (maxInt, false).
Proof. reflexivity. Qed.

Example Atoi_negative_overflow :
  Atoi "-99999999999999999999" = (minInt, false).
Proof. reflexivity. Qed.

Example Atoi_letter_after_digits : Atoi "12a" = (0, false).
Proof. reflexivity. Qed.

Example Atoi_signed : Atoi "+7" = (7, true) /\ Atoi "-7" = (-7, true).
Proof. split; reflexivity. Qed.

Example Atoi_bounds :
  Atoi "9223372036854775807" = (maxInt, true)
  /\ Atoi "9223372036854775808" = (maxInt, false)
  /\ Atoi "-9223372036854775808" = (minInt, true).
Proof. repeat split. Qed.

Lemma Atoi_non_numeric (a : ascii) (rest : string) :
  digitVal a = None -> a <> "-"%char -> a <> "+"%char ->
  Atoi (String a rest) = (0, false).
Proof.
  intros D Hm Hp.
  destruct a as [[] [] [] [] [] [] [] []];
    try (exfalso; apply Hm; reflexivity);
    try (exfalso; apply Hp; reflexivity);
    try (vm_compute in D; discriminate D);
    reflexivity.
Qed.

Section ParameterOverAnyModel.
Context {W : Type} {M : Model W}.

(** X9: a path parameter that starts with a character other than a
    digit or a sign, as the [test] of the repository's tests, is no
    error for the handlers: they treat it as the parameter [0]. *)
Theorem non_numeric_parameter_reads_as_zero
    (c : Context) (w : W) (a : ascii) (rest : string) :
  Param c = String a rest ->
  digitVal a = None -> a <> "-"%char -> a <> "+"%char ->
  let zero := mkContext (token c) "0" (body c) in
  getDatacenterHandler c w = getDatacenterHandler zero w
  /\ updateDatacenterHandler c w = updateDatacenterHandler zero w
  /\ deleteDatacenterHandler c w = deleteDatacenterHandler zero w.
Proof.
  intros Hp D Hm Hplus zero.
  unfold getDatacenterHandler, updateDatacenterHandler, deleteDatacenterHandler.
  rewrite Hp, (Atoi_non_numeric rest D Hm Hplus).
  repeat split; reflexivity.
Qed.
End ParameterOverAnyModel.

(* ================================================================== *)
(** * More on the service capability *)

Lemma find_past (A : Type) (p : A -> bool) (before rest : list A) :
  (forall x, In x before -> p x = false) ->
  find p (before ++ rest) = find p rest.
Proof.
  induction before as [|x before' IH]; simpl; intro H; [reflexivity|].
  rewrite (H x (or_introl eq_refl)). apply IH. intros y Hy. apply H. auto.
Qed.

(** X11: when several stored services fit a [service.get] query, the
    reply is the first of them in the order of the store. *)
Theorem service_get_first_match_wins
    (Unmarshal : string -> Service.t)
    (before after : list Service.t) (s : Service.t) (msg : Msg) :
  let qs := Unmarshal (Data msg) in
  Data msg <> "" ->
  Service.ID s = Service.ID qs ->
  (Service.GroupID qs <> 0 -> Service.GroupID s = Service.GroupID qs) ->
  (forall x, In x before ->
     Service.ID x <> Service.ID qs
     \/ (Service.GroupID qs <> 0 /\ Service.GroupID x <> Service.GroupID qs)) ->
  getServiceSubcriber Unmarshal (before ++ s :: after) msg
  = [(Reply msg, MarshalService s)].
Proof.
  intros qs Hdata Hid Hgroup Hbefore.
  rewrite getServiceSubcriber_eq. fold qs.
  destruct (String.eqb_spec (Data msg) "") as [E|_]; [contradiction|].
  rewrite find_past.
  - simpl. replace (specMatches qs s) with true; [reflexivity|].
    symmetry. apply specMatches_true. auto.
  - intros x Hx. destruct (specMatches qs x) eqn:Mx; [|reflexivity].
    apply specMatches_true in Mx. destruct Mx as [Mid Mg].
    destruct (Hbefore x Hx) as [Hne|[Hnz Hne]]; [contradiction|].
    exfalso. apply Hne, Mg, Hnz.
Qed.

(** X12: what [service.set] answers is not stored: a [service.get] for
    the identifier it assigned, in whatever group, is answered with the
    not-found sentinel. *)
Theorem created_service_is_not_found
    (Unmarshal : string -> Service.t) (msg query : Msg) (s : Service.t) :
  createServiceSubcriber Unmarshal msg = [(Reply msg, MarshalService s)] ->
  Service.ID (Unmarshal (Data query)) = Service.ID s ->
  getServiceSubcriber Unmarshal mockServices query
  = [(Reply query, Raw notFound)].
Proof.
  intros Hset Hid. unfold createServiceSubcriber in Hset.
  inversion Hset as [Hs]. rewrite <- Hs in Hid. simpl in Hid.
  rewrite getServiceSubcriber_eq.
  destruct (String.eqb (Data query) ""); [reflexivity|].
  unfold mockServices, find, specMatches. rewrite Hid.
  destruct (Service.GroupID (Unmarshal (Data query)) =? 0); simpl.
  - reflexivity.
  - rewrite !andb_false_r. reflexivity.
Qed.

(** X13: a service that [service.get] returns is one of those that
    [service.find] lists. *)
Theorem service_get_returns_a_listed_service
    (Unmarshal : string -> Service.t) (ss : list Service.t)
    (msg other : Msg) (s : Service.t) :
  In (Reply msg, MarshalService s) (getServiceSubcriber Unmarshal ss msg) ->
  exists listed,
    findServiceSubcriber ss other = [(Reply other, MarshalServices listed)]
    /\ In s listed.
Proof.
  rewrite getServiceSubcriber_eq. intros [H|[]].
  exists ss. split; [reflexivity|].
  destruct (String.eqb (Data msg) ""); [discriminate|].
  destruct (find (specMatches (Unmarshal (Data msg))) ss) as [s0|] eqn:F;
    [|discriminate].
  inversion H; subst s0. apply find_some in F. tauto.
Qed.

(* ================================================================== *)
(** * The in-memory backend: what a save leaves *)

Module BusFactsFurther.
Import Bus BusFacts.

Lemma replaceFirst_split (d : Datacenter.t) (ds ds' : list Datacenter.t) :
  replaceFirst d ds = Some ds' ->
  exists before e after,
    ds = before ++ e :: after
    /\ ds' = before ++ d :: after
    /\ Forall (fun x => Datacenter.ID x <> Datacenter.ID d) before.
Proof.
  revert ds'. induction ds as [|x rest IH]; simpl; [discriminate|].
  intros ds'. unfold hasID at 1.
  destruct (Z.eqb_spec (Datacenter.ID x) (Datacenter.ID d)) as [E|E].
  - intro H; inversion H. exists [], x, rest. simpl. auto.
  - destruct (replaceFirst d rest) as [rest'|]; simpl; [|discriminate].
    intro H; inversion H.
    destruct (IH rest' eq_refl) as (before & e & after & -> & -> & Hall).
    exists (x :: before), e, after. simpl. auto.
Qed.

Lemma replaceFirst_none (d : Datacenter.t) (ds : list Datacenter.t) :
  replaceFirst d ds = None ->
  Forall (fun x => Datacenter.ID x <> Datacenter.ID d) ds.
Proof.
  induction ds as [|x rest IH]; simpl; [constructor|].
  unfold hasID at 1.
  destruct (Z.eqb_spec (Datacenter.ID x) (Datacenter.ID d)) as [E|E];
    [discriminate|].
  destruct (replaceFirst d rest); simpl; [discriminate|]. auto.
Qed.

Lemma find_hasID_past (id : Z) (before rest : list Datacenter.t) :
  Forall (fun x => Datacenter.ID x <> id) before ->
  find (hasID id) (before ++ rest) = find (hasID id) rest.
Proof.
  induction 1 as [|x before' Hx _ IH]; simpl; [reflexivity|].
  unfold hasID at 1. apply Z.eqb_neq in Hx. rewrite Hx. assumption.
Qed.

Lemma find_hasID_here (d : Datacenter.t) (rest : list Datacenter.t) :
  find (hasID (Datacenter.ID d)) (d :: rest) = Some d.
Proof. simpl. unfold hasID. rewrite Z.eqb_refl. reflexivity. Qed.

(** What [put] answers is what a lookup by its identifier finds. *)
Lemma put_find (d d' : Datacenter.t) (ds ds' : list Datacenter.t) :
  put d ds = (ds', d') ->
  find (hasID (Datacenter.ID d')) ds' = Some d'.
Proof.
  unfold put. destruct (Datacenter.ID d =? 0).
  - intro H; inversion H; subst. rewrite find_hasID_past.
    + apply find_hasID_here.
    + apply Forall_forall. intros x Hx. simpl.
      pose proof (freshID_above _ _ Hx). lia.
  - destruct (replaceFirst d ds) as [r|] eqn:R; intro H; inversion H; subst.
    + destruct (replaceFirst_split _ _ R) as (before & e & after & _ & -> & Hall).
      rewrite find_hasID_past; [apply find_hasID_here | assumption].
    + rewrite find_hasID_past; [apply find_hasID_here|].
      apply replaceFirst_none. assumption.
Qed.

Lemma NoDup_swap_middle (A : Type) (before after : list A) (a b : A) :
  NoDup (before ++ a :: after) ->
  ~ In b (before ++ a :: after) ->
  NoDup (before ++ b :: after).
Proof.
  intros Hnd Hb. apply NoDup_remove in Hnd. destruct Hnd as [Hnd Ha].
  apply NoDup_Add with (a := b) (l := before ++ after).
  - apply Add_app.
  - split; [assumption|]. intro Hin. apply Hb.
    apply in_app_or in Hin. apply in_or_app. simpl. tauto.
Qed.

Lemma NoDup_append_one (A : Type) (l : list A) (b : A) :
  NoDup l -> ~ In b l -> NoDup (l ++ [b]).
Proof.
  intros Hnd Hb. apply NoDup_Add with (a := b) (l := l ++ []).
  - apply Add_app.
  - rewrite app_nil_r. auto.
Qed.

(** [put] of a name that is not stored keeps the names distinct. *)
Lemma put_names (d d' : Datacenter.t) (ds ds' : list Datacenter.t) :
  put d ds = (ds', d') ->
  NoDup (List.map Datacenter.Name ds) ->
  ~ In (Datacenter.Name d) (List.map Datacenter.Name ds) ->
  NoDup (List.map Datacenter.Name ds').
Proof.
  unfold put. intros P Hnd Hfree. destruct (Datacenter.ID d =? 0).
  - inversion P; subst. rewrite map_app. simpl.
    apply NoDup_append_one; assumption.
  - destruct (replaceFirst d ds) as [r|] eqn:R; inversion P; subst.
    + destruct (replaceFirst_split _ _ R) as (before & e & after & -> & -> & _).
      rewrite map_app in *. simpl in *.
      apply NoDup_swap_middle with (a := Datacenter.Name e); assumption.
    + rewrite map_app. simpl. apply NoDup_append_one; assumption.
Qed.

Lemma filter_names (p : Datacenter.t -> bool) (ds : list Datacenter.t) :
  NoDup (List.map Datacenter.Name ds) ->
  NoDup (List.map Datacenter.Name (filter p ds)).
Proof.
  induction ds as [|x rest IH]; simpl; [auto|].
  intro H. inversion H as [|n l Hn Hrest]; subst.
  destruct (p x); simpl; [|auto].
  constructor; [|auto]. intro Hin. apply Hn.
  apply in_map_iff in Hin. destruct Hin as (y & Hy & Hf).
  apply filter_In in Hf. apply in_map_iff. exists y. tauto.
Qed.

Lemma delete_identified (d : Datacenter.t) (w : World) :
  identified w -> identified (fst (Bus.delete d w)).
Proof.
  unfold identified, Bus.delete. intro Hw.
  destruct (online "datacenter.del" w); [|assumption].
  simpl. rewrite Forall_forall in *. intros x Hx.
  apply filter_In in Hx. apply Hw. tauto.
Qed.

Lemma findByName_none (name : string) (w : World) (e : error) :
  online "datacenter.get" w = true ->
  findByName name w = inl e ->
  ~ In name (List.map Datacenter.Name (datacenters w)).
Proof.
  unfold findByName, call. intros -> H Hin.
  destruct (find (hasName name) (datacenters w)) as [x|] eqn:F; [discriminate|].
  apply in_map_iff in Hin. destruct Hin as (x & Hx & Hin).
  apply (find_none _ _ F) in Hin. unfold hasName in Hin.
  rewrite Hx, String.eqb_refl in Hin. discriminate.
Qed.
End BusFactsFurther.

(* ================================================================== *)
(** * More on the handlers over the in-memory backend *)

Section OnTheBusFurther.
Import Bus BusFacts BusFactsFurther.

Variable validate : Datacenter.t -> option error.

Local Abbreviation create := (@createDatacenterHandler World (model validate)).
Local Abbreviation update := (@updateDatacenterHandler World (model validate)).
Local Abbreviation delete := (@deleteDatacenterHandler World (model validate)).
Local Abbreviation index := (@getDatacentersHandler World (model validate)).
Local Abbreviation getOne := (@getDatacenterHandler World (model validate)).

Lemma getOne_after_put (c : Context) (w : World)
    (d d' : Datacenter.t) (ds' : list Datacenter.t) :
  online "datacenter.get" w = true ->
  put d (datacenters w) = (ds', d') ->
  fst (Atoi (Param c)) = Datacenter.ID d' ->
  getOne c (mkWorld ds' (services w) (offline w))
  = mkOutcome (mkWorld ds' (services w) (offline w)) []
      (Respond (JSONBlob StatusOK (MarshalDatacenter d'))).
Proof.
  intros Hget P Hid. unfold getDatacenterHandler. simpl.
  rewrite Hid. unfold findByID, call.
  change (online "datacenter.get" (mkWorld ds' (services w) (offline w)))
    with (online "datacenter.get" w).
  rewrite Hget. cbn [datacenters]. rewrite (put_find _ _ P). reflexivity.
Qed.

Lemma delete_world_cases (c : Context) (w : World) :
  world (delete c w) = w
  \/ exists d, world (delete c w) = fst (Bus.delete d w).
Proof.
  unfold deleteDatacenterHandler. simpl.
  destruct (findByID _ w) as [err|d]; [left; reflexivity|].
  destruct (negb _); [left; reflexivity|].
  destruct (servicesOf d w) as [serr|ss]; [left; reflexivity|].
  destruct (0 <? _); [left; reflexivity|].
  right. exists d. destruct (Bus.delete d w) as [w' [derr|]]; reflexivity.
Qed.

(** X14: if every stored datacenter has a non-zero identifier before a
    request, so it is after it, whichever of the five handlers served
    the request and however it ended. *)
Theorem handlers_keep_identified (c : Context) (w : World) :
  identified w ->
  identified (world (index c w))
  /\ identified (world (getOne c w))
  /\ identified (world (create c w))
  /\ identified (world (update c w))
  /\ identified (world (delete c w)).
Proof.
  intro Hw. split; [|split; [|split; [|split]]].
  - unfold getDatacentersHandler.
    destruct (if User.Admin (authenticatedUser c) then _ else _); assumption.
  - unfold getDatacenterHandler. destruct (FindByID _ w); assumption.
  - destruct (create_world (M := model validate) c w) as [E|[d E]]; rewrite E;
      [assumption | apply save_identified; assumption].
  - destruct (update_world (M := model validate) c w) as [E|[d E]]; rewrite E;
      [assumption | apply save_identified; assumption].
  - destruct (delete_world_cases c w) as [E|[d E]]; rewrite E;
      [assumption | apply delete_identified; assumption].
Qed.

(** X15: the names in the store stay distinct: a create keeps them so
    as long as its name lookup is answered, an update as long as the
    stored datacenters are identified, and a delete always. *)
Theorem handlers_keep_names_unique (c : Context) (w : World) :
  uniqueNames w ->
  (online "datacenter.get" w = true -> uniqueNames (world (create c w)))
  /\ (identified w -> uniqueNames (world (update c w)))
  /\ uniqueNames (world (delete c w)).
Proof.
  unfold uniqueNames. intro Hu. split; [|split].
  - intro Hget. rewrite create_eq. cbv zeta.
    destruct (User.GroupID (authenticatedUser c) =? 0); [assumption|].
    destruct (Map c) as [d|]; [|assumption].
    destruct (validate d); [assumption|].
    destruct (findByName _ w) as [e|taken] eqn:F; [|assumption].
    destruct (online "datacenter.set" w); [|assumption].
    cbn [world datacenters].
    apply put_names with (d := Datacenter.setGroupID d (User.GroupID (authenticatedUser c)))
                         (d' := snd (put (Datacenter.setGroupID d
                                  (User.GroupID (authenticatedUser c))) (datacenters w)))
                         (ds := datacenters w).
    + apply surjective_pairing.
    + assumption.
    + apply (@findByName_none _ _ _ Hget F).
  - intro Hid. rewrite updateDatacenterHandler_eq.
    destruct (Map c) as [d|]; [|assumption].
    simpl. destruct (findByID (fst (Atoi (Param c))) w) as [e|existing] eqn:F;
      [assumption|].
    apply findByID_inv in F. destruct F as (_ & Hf & Heq).
    unfold save. destruct (online "datacenter.set" w); [|assumption].
    set (updated := Datacenter.setCredentials existing d).
    assert (Hf' : find (hasID (Datacenter.ID updated)) (datacenters w) = Some existing)
      by (simpl; rewrite Heq; assumption).
    destruct (replaceFirst_found updated _ Hf')
      as (before & after & Hsplit & Hrep & _ & _).
    assert (Hnz : Datacenter.ID updated <> 0).
    { apply find_some in Hf. destruct Hf as [Hin _].
      unfold identified in Hid. rewrite Forall_forall in Hid.
      apply (Hid existing Hin). }
    unfold put. apply Z.eqb_neq in Hnz. rewrite Hnz, Hrep.
    cbn [world datacenters]. rewrite Hsplit in Hu.
    rewrite map_app in *. exact Hu.
  - destruct (delete_world_cases c w) as [E|[d E]]; rewrite E; [assumption|].
    unfold Bus.delete. destruct (online "datacenter.del" w); [|assumption].
    cbn [fst datacenters]. apply filter_names. assumption.
Qed.

(** X16: a datacenter that POST /datacenters/ answered with after a
    save that went through is what GET /datacenters/:id answers for its
    identifier on the store the create left, secrets included. *)
Theorem created_datacenter_reads_back
    (c c' : Context) (w : World) (d' : Datacenter.t) :
  result (create c w) = Respond (JSONBlob StatusOK (MarshalDatacenter d')) ->
  logged (create c w) = [] ->
  online "datacenter.get" w = true ->
  fst (Atoi (Param c')) = Datacenter.ID d' ->
  getOne c' (world (create c w))
  = mkOutcome (world (create c w)) []
      (Respond (JSONBlob StatusOK (MarshalDatacenter d'))).
Proof.
  rewrite create_eq. cbv zeta.
  destruct (User.GroupID (authenticatedUser c) =? 0); simpl; [discriminate|].
  destruct (Map c) as [d|]; simpl; [|discriminate].
  destruct (validate d); simpl; [discriminate|].
  destruct (findByName _ w); simpl; [|discriminate].
  destruct (online "datacenter.set" w); simpl; [|discriminate].
  intros Hr _ Hget Hid. inversion Hr as [Hd]. rewrite Hd.
  apply getOne_after_put with
    (d := Datacenter.setGroupID d (User.GroupID (authenticatedUser c)));
    [assumption | | assumption].
  rewrite <- Hd. apply surjective_pairing.
Qed.

(** X17: after a PUT /datacenters/:id whose save went through, on a
    store of identified datacenters, GET /datacenters/:id with the same
    parameter answers with the datacenter that was found, carrying the
    credentials of the request. *)
Theorem updated_datacenter_reads_back
    (c : Context) (w : World) (d existing : Datacenter.t) :
  Map c = Some d ->
  findByID (fst (Atoi (Param c))) w = inr existing ->
  identified w ->
  online "datacenter.set" w = true ->
  result (getOne c (world (update c w)))
  = Respond (JSONBlob StatusOK
      (MarshalDatacenter (Datacenter.setCredentials existing d))).
Proof.
  intros Hm Hfind Hid Hset.
  rewrite updateDatacenterHandler_eq, Hm. simpl. rewrite Hfind.
  apply findByID_inv in Hfind. destruct Hfind as (Hget & Hf & Heq).
  set (updated := Datacenter.setCredentials existing d).
  assert (Hf' : find (hasID (Datacenter.ID updated)) (datacenters w) = Some existing)
    by (simpl; rewrite Heq; assumption).
  destruct (replaceFirst_found updated _ Hf')
    as (before & after & Hsplit & Hrep & _ & _).
  assert (Hnz : Datacenter.ID updated <> 0).
  { apply find_some in Hf. destruct Hf as [Hin _].
    unfold identified in Hid. rewrite Forall_forall in Hid.
    apply (Hid existing Hin). }
  assert (P : put updated (datacenters w) = (before ++ updated :: after, updated)).
  { unfold put. apply Z.eqb_neq in Hnz. rewrite Hnz, Hrep. reflexivity. }
  unfold save. rewrite Hset, P. cbn [world].
  rewrite (@getOne_after_put c w _ _ _ Hget P); [reflexivity|].
  simpl. symmetry. assumption.
Qed.
End OnTheBusFurther.

(* ================================================================== *)
(** * More runs on the sample store *)

Lemma create_failures_leave_the_store_witness :
  world (@createDatacenterHandler _ busModel postDuplicateByUserTwo sampleWorld)
  = sampleWorld
  /\ world (@createDatacenterHandler _ busModel postNameless sampleWorld)
     = sampleWorld.
Proof.
  split.
  - apply (@create_failures_leave_the_store _ busModel
             postDuplicateByUserTwo sampleWorld
             (HTTPError 409 (Literal "Specified datacenter already exists"))).
    reflexivity.
  - apply (@create_failures_leave_the_store _ busModel
             postNameless sampleWorld
             (HTTPError StatusBadRequest
                (ErrorOf (ErrValidation "Datacenter name is empty")))).
    reflexivity.
Defined.

(** With the name lookup unanswered, a second datacenter named [test]
    is saved. *)
Lemma create_takes_a_failed_lookup_for_a_free_name_witness :
  world (@createDatacenterHandler _ busModel postDuplicateByUserTwo getDownWorld)
  = Bus.mkWorld [dcTest; dcOther; createdDuplicate] mockServices ["datacenter.get"]
  /\ status (result (@createDatacenterHandler _ busModel
                       postDuplicateByUserTwo getDownWorld))
     = Some StatusOK.
Proof.
  assert (Hg : User.GroupID (authenticatedUser postDuplicateByUserTwo) <> 0)
    by discriminate.
  exact (@create_takes_a_failed_lookup_for_a_free_name _ busModel
           postDuplicateByUserTwo getDownWorld duplicateDatacenter ErrTimeout
           Hg eq_refl eq_refl eq_refl).
Defined.

(** The admin, in group 1, may not delete datacenter 2 of group 2. *)
Lemma delete_of_another_group_is_unauthorized_witness :
  User.Admin (authenticatedUser deleteTwoByAdmin) = true
  /\ @deleteDatacenterHandler _ busModel deleteTwoByAdmin sampleWorld
     = mkOutcome sampleWorld [] (Fail ErrUnauthorized).
Proof.
  split; [reflexivity|].
  apply (@delete_of_another_group_is_unauthorized _ busModel
           deleteTwoByAdmin sampleWorld dcOther); [reflexivity | discriminate].
Defined.

Lemma delete_failures_witness :
  Bus.findByID (fst (Atoi (Param deleteNineByUserOne))) sampleWorld = inl ErrNotFound
  \/ exists d,
       Bus.findByID (fst (Atoi (Param deleteNineByUserOne))) sampleWorld = inr d
       /\ ((User.GroupID (authenticatedUser deleteNineByUserOne) <> Datacenter.GroupID d
            /\ ErrNotFound = ErrUnauthorized)
           \/ (User.GroupID (authenticatedUser deleteNineByUserOne) = Datacenter.GroupID d
               /\ ((exists serr, Bus.servicesOf d sampleWorld = inl serr
                      /\ ErrNotFound = HTTPError 500 (ErrorOf serr))
                   \/ (exists s rest, Bus.servicesOf d sampleWorld = inr (s :: rest)
                      /\ ErrNotFound = HTTPError 400
                             (Literal "Existing services are referring to this datacenter."))
                   \/ (Bus.servicesOf d sampleWorld = inr []
                       /\ snd (Bus.delete d sampleWorld) = Some ErrNotFound)))).
Proof.
  apply (@delete_failures _ busModel deleteNineByUserOne sampleWorld ErrNotFound).
  reflexivity.
Defined.

(** GET /datacenters/test is GET /datacenters/0. *)
Lemma non_numeric_parameter_reads_as_zero_witness :
  @getDatacenterHandler _ busModel getNamedTest sampleWorld
  = @getDatacenterHandler _ busModel (mkContext userOne "0" None) sampleWorld
  /\ result (@getDatacenterHandler _ busModel getNamedTest sampleWorld)
     = Fail ErrNotFound.
Proof.
  split; [|reflexivity].
  apply (@non_numeric_parameter_reads_as_zero _ busModel
           getNamedTest sampleWorld "t"%char "est");
    [reflexivity | reflexivity | discriminate | discriminate].
Defined.

(** Query [{group_id:2, id:"1"}] on two services with identifier "1":
    the one of group 1 is passed, the one of group 2 is returned. *)
Lemma service_get_first_match_wins_witness :
  getServiceSubcriber sampleUnmarshal twinServices (mkMsg "2:1" "_INBOX.4")
  = [("_INBOX.4", MarshalService (Service.mk "1" "second" 2 1))].
Proof.
  apply (@service_get_first_match_wins sampleUnmarshal
           [Service.mk "1" "first" 1 1] [] (Service.mk "1" "second" 2 1)
           (mkMsg "2:1" "_INBOX.4")).
  - discriminate.
  - reflexivity.
  - intros _. reflexivity.
  - intros x [<- | []]. right. split; discriminate.
Defined.

Lemma created_service_is_not_found_witness :
  getServiceSubcriber
    (fun data => if String.eqb data "3" then Service.mk "3" "" 0 0
                 else Service.mk "" "fresh" 1 1)
    mockServices (mkMsg "3" "_INBOX.6")
  = [("_INBOX.6", Raw notFound)].
Proof.
  apply (@created_service_is_not_found
           (fun data => if String.eqb data "3" then Service.mk "3" "" 0 0
                        else Service.mk "" "fresh" 1 1)
           (mkMsg "fresh" "_INBOX.5") (mkMsg "3" "_INBOX.6")
           (Service.mk "3" "fresh" 1 1)); reflexivity.
Defined.

Lemma service_get_returns_a_listed_service_witness :
  exists listed,
    findServiceSubcriber mockServices (mkMsg "" "_INBOX.8")
    = [("_INBOX.8", MarshalServices listed)]
    /\ In (Service.mk "1" "test" 1 1) listed.
Proof.
  apply (@service_get_returns_a_listed_service sampleUnmarshal mockServices
           (mkMsg "1" "_INBOX.7") (mkMsg "" "_INBOX.8")).
  simpl. auto.
Defined.

Lemma sampleWorld_identified : Bus.identified sampleWorld.
Proof. repeat constructor; discriminate. Qed.

Lemma sampleWorld_uniqueNames : uniqueNames sampleWorld.
Proof.
  unfold uniqueNames. simpl. repeat constructor; simpl.
  - intros [H | []]. discriminate.
  - intros [].
Qed.

Lemma handlers_keep_identified_witness :
  Bus.identified
    (world (@createDatacenterHandler _ busModel postByUserOne sampleWorld))
  /\ Bus.identified
       (world (@deleteDatacenterHandler _ busModel deleteTwoByUserTwo sampleWorld)).
Proof.
  destruct (@handlers_keep_identified requireName postByUserOne sampleWorld
              sampleWorld_identified) as (_ & _ & Hcreate & _ & _).
  destruct (@handlers_keep_identified requireName deleteTwoByUserTwo sampleWorld
              sampleWorld_identified) as (_ & _ & _ & _ & Hdelete).
  split; assumption.
Defined.

Lemma handlers_keep_names_unique_witness :
  uniqueNames (world (@createDatacenterHandler _ busModel postByUserOne sampleWorld))
  /\ uniqueNames (world (@updateDatacenterHandler _ busModel putByOwner sampleWorld))
  /\ uniqueNames (world (@deleteDatacenterHandler _ busModel deleteTwoByUserTwo sampleWorld)).
Proof.
  destruct (@handlers_keep_names_unique requireName postByUserOne sampleWorld
              sampleWorld_uniqueNames) as (Hcreate & _ & _).
  destruct (@handlers_keep_names_unique requireName putByOwner sampleWorld
              sampleWorld_uniqueNames) as (_ & Hupdate & _).
  destruct (@handlers_keep_names_unique requireName deleteTwoByUserTwo sampleWorld
              sampleWorld_uniqueNames) as (_ & _ & Hdelete).
  split; [exact (Hcreate eq_refl)|].
  split; [exact (Hupdate sampleWorld_identified) | exact Hdelete].
Defined.

Lemma created_datacenter_reads_back_witness :
  result (@getDatacenterHandler _ busModel getThree
            (world (@createDatacenterHandler _ busModel postByUserOne sampleWorld)))
  = Respond (JSONBlob StatusOK (MarshalDatacenter createdDatacenter)).
Proof.
  unfold busModel.
  rewrite (@created_datacenter_reads_back requireName postByUserOne getThree
             sampleWorld createdDatacenter eq_refl eq_refl eq_refl eq_refl).
  reflexivity.
Defined.

Lemma updated_datacenter_reads_back_witness :
  result (@getDatacenterHandler _ busModel putByOwner
            (world (@updateDatacenterHandler _ busModel putByOwner sampleWorld)))
  = Respond (JSONBlob StatusOK (MarshalDatacenter dcTestUpdated)).
Proof.
  exact (@updated_datacenter_reads_back requireName putByOwner sampleWorld
           newCredentials dcTest eq_refl eq_refl sampleWorld_identified eq_refl).
Defined.
